(** * tx-manager: the lifecycle of one [Transaction] (src/Transaction.js)

    A shallow embedding of the [Transaction] class: its request object, the
    manager it shares with its siblings (nonce, mutex, config), the network
    collaborator it awaits, and the methods [send], [replace], [cancel],
    [_execute], [_prepare], [_send] and [_increaseGasPrice].

    Conventions of the embedding.
    - A JavaScript object used as a record of optional fields (the request
      [this.tx]) is a [gmap string value]; reading a missing field gives
      [VUndefined], as in the source.
    - A JavaScript number that holds an integer is a [Z]; this is exact on
      the safe-integer range of doubles (below 2^53 in absolute value), which
      is where nonces, gas limits and wei prices live.  The two places where
      the source multiplies by a fractional constant or option
      ([GAS_LIMIT_MULTIPLIER], [0.95]) use binary64 arithmetic.
    - An [async] method is a state transformer that runs until the method
      settles or is suspended on an awaited promise that is never settled
      ([Pending]); code of other callers interleaved at an [await] is
      outside the model.
    - Every effect that leaves the process (a network query, an emitted
      event, a log line) is appended to a trace, in program order. *)

From Stdlib Require Import ZArith Floats.
From stdpp Require Import gmap strings list fin_maps.

Local Open Scope Z_scope.

(** ** JavaScript values *)

(** A number: a finite integer, an infinity, or NaN. *)
Inductive number : Type :=
  | NFin (z : Z)
  | NInf (negative : bool)
  | NNaN.

(** The values a field of the request can hold.  [VHex n] is a string
    that is the hexadecimal numeral of [n], as [BigNumber.toHexString]
    produces it: [0x...], and [-0x...] for a negative [n].  [VDec n] is a
    string that is the decimal numeral of [n].  [VStr s] is any other
    string: text that is not a numeral, and the addresses and call data of
    a request, which the class stores and hands on and never reads as
    numbers. *)
Inductive value : Type :=
  | VUndefined
  | VNumber (n : number)
  | VHex (n : Z)
  | VDec (n : Z)
  | VStr (s : string).

Abbreviation VNum z := (VNumber (NFin z)).
Abbreviation VNaN := (VNumber NNaN).

#[global] Instance number_eq_dec : EqDecision number.
Proof. solve_decision. Defined.

#[global] Instance value_eq_dec : EqDecision value.
Proof. solve_decision. Defined.

(** [!v] of the source: true on [undefined], [0], [NaN] and the empty
    string. *)
Definition falsy (v : value) : bool :=
  match v with
  | VUndefined => true
  | VNumber (NFin z) => z =? 0
  | VNumber NNaN => true
  | VNumber (NInf _) => false
  | VHex _ => false
  | VDec _ => false
  | VStr s => if decide (s = EmptyString) then true else false
  end.

(** [a || b]. *)
Definition js_or (a b : value) : value := if falsy a then b else a.

(** ToNumber, as [Math.max] and [Math.min] apply it to their arguments.
    A hexadecimal numeral is read as its number unless it is signed: a
    signed one is not a numeric literal and gives [NaN].  A decimal numeral
    is read as its number, the empty string as [0], other text as [NaN]. *)
Definition to_number (v : value) : number :=
  match v with
  | VUndefined => NNaN
  | VNumber n => n
  | VHex n => if n <? 0 then NNaN else NFin n
  | VDec n => NFin n
  | VStr s => if decide (s = EmptyString) then NFin 0 else NNaN
  end.

Definition number_max (a b : number) : number :=
  match a, b with
  | NNaN, _ | _, NNaN => NNaN
  | NInf false, _ | _, NInf false => NInf false
  | NInf true, x | x, NInf true => x
  | NFin x, NFin y => NFin (Z.max x y)
  end.

Definition number_min (a b : number) : number :=
  match a, b with
  | NNaN, _ | _, NNaN => NNaN
  | NInf true, _ | _, NInf true => NInf true
  | NInf false, x | x, NInf false => x
  | NFin x, NFin y => NFin (Z.min x y)
  end.

Definition Math_max (a b : value) : value :=
  VNumber (number_max (to_number a) (to_number b)).

Definition Math_min (a b : value) : value :=
  VNumber (number_min (to_number a) (to_number b)).

(** [v + 1]: numeric addition on numbers and [undefined], concatenation on
    strings.  The digit [1] appended to a numeral gives the numeral of
    sixteen (or ten) times its number, plus one, the sign kept. *)
Definition js_add1 (v : value) : value :=
  match v with
  | VUndefined => VNaN
  | VNumber (NFin z) => VNum (z + 1)
  | VNumber n => VNumber n
  | VHex n => VHex (if n <? 0 then 16 * n - 1 else 16 * n + 1)
  | VDec n => VDec (if n <? 0 then 10 * n - 1 else 10 * n + 1)
  | VStr s => VStr (s +:+ "1")
  end.

(** ** Binary64 arithmetic

    [Math.floor(n * f)] for an integer-valued number [n] and a double [f]:
    the product is rounded to the nearest double first, the floor is taken
    of that double. *)

(** The double of an integer; exact on the safe integers. *)
Definition float_of_Z (z : Z) : float :=
  if z <? 0
  then PrimFloat.opp (PrimFloat.of_uint63 (Uint63.of_Z (- z)))
  else PrimFloat.of_uint63 (Uint63.of_Z z).

Definition floor_float (f : float) : number :=
  match Prim2SF f with
  | S754_zero _ => NFin 0
  | S754_infinity s => NInf s
  | S754_nan => NNaN
  | S754_finite s m e =>
      let v := if s then Z.neg m else Z.pos m in
      NFin (if 0 <=? e then v * 2 ^ e else v / 2 ^ (- e))
  end.

Definition floor_mul (n : Z) (f : float) : value :=
  VNumber (floor_float (PrimFloat.mul (float_of_Z n) f)).

(** ** ethers' BigNumber *)

Definition MAX_SAFE : Z := 2 ^ 53 - 1.

(** [BigNumber.from v]: accepts a hexadecimal numeral, a decimal numeral
    and a safe integer number; throws on everything else. *)
Definition BigNumber_from (v : value) : option Z :=
  match v with
  | VHex n => Some n
  | VDec n => Some n
  | VNumber (NFin z) =>
      if (MAX_SAFE <=? z) || (z <=? - MAX_SAFE) then None else Some z
  | _ => None
  end.

(** [parseUnits(n.toString(), 'gwei')] for a whole number of gwei. *)
Definition parseUnits_gwei (n : Z) : Z := n * 10 ^ 9.

(** Modelled from the spec: [min] and [max] of ./utils, which is not among
    the sources; the spec reads them as the lesser and the greater of two
    big numbers. *)
Definition bn_min (a b : Z) : Z := Z.min a b.

(** Modelled from the spec: see [bn_min]. *)
Definition bn_max (a b : Z) : Z := Z.max a b.

(** ** Objects *)

Abbreviation txobj := (gmap string value).

(** [o.k] *)
Definition get (o : txobj) (k : string) : value := default VUndefined (o !! k).

(** [o.k = v] *)
Definition put (k : string) (v : value) (o : txobj) : txobj := <[k := v]> o.

(** ** The manager, the transaction and the world around them *)

(** The resolved options of the manager ([manager.config]).  The two gas
    prices are whole numbers of gwei. *)
Record Config : Type := {
  GAS_LIMIT_MULTIPLIER : float;
  BLOCK_GAS_LIMIT : value;
  ESTIMATE_GAS : bool;
  MAX_GAS_PRICE : Z;
  MIN_GWEI_BUMP : Z;
  GAS_BUMP_PERCENTAGE : Z
}.

(** The part of the manager a transaction reads and writes: the sender
    address, the next nonce [_nonce], the mutex [_mutex] (held or free) and
    the config object, which every transaction of the manager aliases. *)
Record Manager : Type := {
  m_address : string;
  m_nonce : value;
  m_locked : bool;
  m_config : Config
}.

Record Receipt : Type := { r_hash : string; r_block : Z }.

Inductive error : Type :=
  | AlreadyExecutedError          (* 'The transaction was already executed' *)
  | NetworkError (code : Z)       (* a rejection of the network collaborator *)
  | BigNumberError.               (* BigNumber.from on a non-integer *)

(** The promise behind [send]'s emitter. *)
Inductive promise : Type :=
  | Unsettled
  | Resolved (r : option Receipt)
  | Rejected (e : error).

(** The fields of a [Transaction] instance. *)
Record Transaction : Type := {
  t_address : string;             (* copied from the manager by Object.assign *)
  tx : txobj;
  executed : bool;
  retries : Z;
  currentTxHash : option string;
  hashes : list string;
  receipt : option Receipt;
  submitTimestamp : option Z;
  t_promise : promise
}.

(** What leaves the process, in program order. *)
Inductive event : Type :=
  | EGetBlock
  | EEstimateGas (req : txobj)
  | EGasPriceOracle
  | EGetTransactionCount (addr : string)
  | EGetChainId
  | ESendTransaction (req : txobj)
  | EGetHash
  | EWaitReceipt
  | EEmit (name : string) (hash : string)
  | ELog (line : string).

Record State : Type := {
  mgr : Manager;
  txn : Transaction;
  trace : list event
}.

(** An awaited promise of the collaborator: fulfilled, rejected or never
    settled. *)
Inductive reply (A : Type) : Type :=
  | Reply (a : A)
  | Reject (code : Z)
  | NoReply.
Arguments Reply {A} a.
Arguments Reject {A} code.
Arguments NoReply {A}.

(** The network collaborator ([this._kit]).  Each answer may depend on when
    the question is asked: the first argument is the number of events that
    precede the call.  [net_gasPrice] is the value of
    [BigNumber.from(await this._getGasPrice(1.3))], the oracle's answer
    after its conversion to wei, the three questions of [_getGasPrice]
    taken as one; [net_getBlock] is [lastBlock.gasLimit.toNumber()]. *)
Record Network : Type := {
  net_getBlock : nat -> reply Z;
  net_estimateGas : nat -> txobj -> reply Z;
  net_gasPrice : nat -> reply Z;
  net_getTransactionCount : nat -> string -> reply Z;
  net_getChainId : nat -> reply Z;
  net_sendTransaction : nat -> txobj -> reply unit;
  net_getHash : nat -> reply string;
  net_waitReceipt : nat -> reply Receipt;
  net_now : nat -> Z
}.

(** ** The monad of methods *)

Inductive outcome (A : Type) : Type :=
  | Ok (a : A)
  | Throw (e : error)
  | Pending.
Arguments Ok {A} a.
Arguments Throw {A} e.
Arguments Pending {A}.

Definition M (A : Type) : Type := State -> outcome A * State.

Definition ret {A} (a : A) : M A := fun s => (Ok a, s).

Definition bind {A B} (m : M A) (f : A -> M B) : M B :=
  fun s =>
    match m s with
    | (Ok a, s') => f a s'
    | (Throw e, s') => (Throw e, s')
    | (Pending, s') => (Pending, s')
    end.

Definition throw {A} (e : error) : M A := fun s => (Throw e, s).

Notation "x <- c1 ;; c2" := (bind c1 (fun x => c2))
  (at level 100, c1 at next level, right associativity).
Notation "c1 ;;; c2" := (bind c1 (fun _ => c2))
  (at level 100, right associativity).

(** [try { body } finally { fin }]: [fin] runs when [body] returns or
    throws, not while it is suspended. *)
Definition try_finally {A} (body : M A) (fin : State -> State) : M A :=
  fun s =>
    match body s with
    | (Pending, s') => (Pending, s')
    | (o, s') => (o, fin s')
    end.

Definition get_state : M State := fun s => (Ok s, s).
Definition modify (f : State -> State) : M unit := fun s => (Ok tt, f s).

Definition with_mgr (f : Manager -> Manager) (s : State) : State :=
  {| mgr := f (mgr s); txn := txn s; trace := trace s |}.
Definition with_txn (f : Transaction -> Transaction) (s : State) : State :=
  {| mgr := mgr s; txn := f (txn s); trace := trace s |}.
Definition record (e : event) (s : State) : State :=
  {| mgr := mgr s; txn := txn s; trace := trace s ++ [e] |}.

(** [await q]: the question is recorded, then the answer is awaited. *)
Definition await {A} (e : event) (q : nat -> reply A) : M A :=
  fun s =>
    match q (length (trace s)) with
    | Reply a => (Ok a, record e s)
    | Reject c => (Throw (NetworkError c), record e s)
    | NoReply => (Pending, record e s)
    end.

Definition console_log (line : string) : M unit := modify (record (ELog line)).
Definition emit (name hash : string) : M unit := modify (record (EEmit name hash)).

(** Field updates. *)
Definition set_tx (o : txobj) (t : Transaction) : Transaction :=
  {| t_address := t_address t; tx := o; executed := executed t;
     retries := retries t; currentTxHash := currentTxHash t;
     hashes := hashes t; receipt := receipt t;
     submitTimestamp := submitTimestamp t; t_promise := t_promise t |}.
Definition set_executed (b : bool) (t : Transaction) : Transaction :=
  {| t_address := t_address t; tx := tx t; executed := b;
     retries := retries t; currentTxHash := currentTxHash t;
     hashes := hashes t; receipt := receipt t;
     submitTimestamp := submitTimestamp t; t_promise := t_promise t |}.
Definition push_hash (h : string) (t : Transaction) : Transaction :=
  {| t_address := t_address t; tx := tx t; executed := executed t;
     retries := retries t; currentTxHash := currentTxHash t;
     hashes := hashes t ++ [h]; receipt := receipt t;
     submitTimestamp := submitTimestamp t; t_promise := t_promise t |}.
Definition set_receipt (r : Receipt) (t : Transaction) : Transaction :=
  {| t_address := t_address t; tx := tx t; executed := executed t;
     retries := retries t; currentTxHash := currentTxHash t;
     hashes := hashes t; receipt := Some r;
     submitTimestamp := submitTimestamp t; t_promise := t_promise t |}.
Definition set_submitTimestamp (z : Z) (t : Transaction) : Transaction :=
  {| t_address := t_address t; tx := tx t; executed := executed t;
     retries := retries t; currentTxHash := currentTxHash t;
     hashes := hashes t; receipt := receipt t;
     submitTimestamp := Some z; t_promise := t_promise t |}.
Definition set_promise (p : promise) (t : Transaction) : Transaction :=
  {| t_address := t_address t; tx := tx t; executed := executed t;
     retries := retries t; currentTxHash := currentTxHash t;
     hashes := hashes t; receipt := receipt t;
     submitTimestamp := submitTimestamp t; t_promise := p |}.

Definition set_nonce (v : value) (m : Manager) : Manager :=
  {| m_address := m_address m; m_nonce := v; m_locked := m_locked m;
     m_config := m_config m |}.
Definition set_locked (b : bool) (m : Manager) : Manager :=
  {| m_address := m_address m; m_nonce := m_nonce m; m_locked := b;
     m_config := m_config m |}.
Definition set_BLOCK_GAS_LIMIT (v : value) (m : Manager) : Manager :=
  {| m_address := m_address m; m_nonce := m_nonce m; m_locked := m_locked m;
     m_config :=
       {| GAS_LIMIT_MULTIPLIER := GAS_LIMIT_MULTIPLIER (m_config m);
          BLOCK_GAS_LIMIT := v;
          ESTIMATE_GAS := ESTIMATE_GAS (m_config m);
          MAX_GAS_PRICE := MAX_GAS_PRICE (m_config m);
          MIN_GWEI_BUMP := MIN_GWEI_BUMP (m_config m);
          GAS_BUMP_PERCENTAGE := GAS_BUMP_PERCENTAGE (m_config m) |} |}.

(** [this.tx.k = v] *)
Definition set_field (k : string) (v : value) : M unit :=
  modify (with_txn (fun t => set_tx (put k v (tx t)) t)).

(** ** The class *)

(** [constructor(tx, manager)].  [Object.assign(this, manager)] copies the
    manager's address and aliases its config; the request is the caller's
    fields with [from] bound to the manager's address. *)
Definition new_Transaction (tx0 : txobj) (m : Manager) : Transaction :=
  {| t_address := m_address m;
     tx := put "from" (VStr (m_address m)) tx0;
     executed := false;
     retries := 0;
     currentTxHash := None;
     hashes := [];
     receipt := None;
     submitTimestamp := None;
     t_promise := Unsettled |}.

(** [0.95] and the closest double to it are the same literal in the
    source. *)
Definition ninety_five_percent : float := (0x1.e666666666666p-1)%float.

Section Methods.

Variable net : Network.

(** [_getLastNonce()] *)
Definition _getLastNonce : M Z :=
  s <- get_state ;;
  await (EGetTransactionCount (t_address (txn s)))
        (fun t => net_getTransactionCount net t (t_address (txn s))).

(** [_prepare()], lines 100-103: the block gas limit is discovered once and
    cached on the shared config. *)
Definition prepare_blockGasLimit : M unit :=
  s <- get_state ;;
  if falsy (BLOCK_GAS_LIMIT (m_config (mgr s))) then
    lastBlock <- await EGetBlock (net_getBlock net) ;;
    modify (with_mgr (set_BLOCK_GAS_LIMIT (floor_mul lastBlock ninety_five_percent)))
  else ret tt.

(** [_prepare()], lines 105-111. *)
Definition prepare_gasLimit : M unit :=
  s <- get_state ;;
  if falsy (get (tx (txn s)) "gasLimit") || ESTIMATE_GAS (m_config (mgr s)) then
    gas <- await (EEstimateGas (tx (txn s)))
                 (fun t => net_estimateGas net t (tx (txn s))) ;;
    s <- get_state ;;
    if falsy (get (tx (txn s)) "gasLimit") then
      let gasLimit := floor_mul gas (GAS_LIMIT_MULTIPLIER (m_config (mgr s))) in
      set_field "gasLimit" (Math_min gasLimit (BLOCK_GAS_LIMIT (m_config (mgr s))))
    else ret tt
  else ret tt.

(** [_prepare()], lines 112-116. *)
Definition prepare_gasPrice : M unit :=
  s <- get_state ;;
  if falsy (get (tx (txn s)) "gasPrice") then
    fastGasPrice <- await EGasPriceOracle (net_gasPrice net) ;;
    console_log "Gas price is now" ;;;
    s <- get_state ;;
    let maxGasPrice := parseUnits_gwei (MAX_GAS_PRICE (m_config (mgr s))) in
    set_field "gasPrice" (VHex (bn_min fastGasPrice maxGasPrice))
  else ret tt.

(** [_prepare()], lines 117-120. *)
Definition prepare_nonce : M unit :=
  s <- get_state ;;
  (if falsy (m_nonce (mgr s)) then
     n <- _getLastNonce ;;
     modify (with_mgr (set_nonce (VNum n)))
   else ret tt) ;;;
  s <- get_state ;;
  set_field "nonce" (m_nonce (mgr s)).

(** [_prepare()], line 121. *)
Definition prepare_chainId : M unit :=
  c <- await EGetChainId (net_getChainId net) ;;
  set_field "chainId" (VNum c).

(** [_prepare()] *)
Definition _prepare : M unit :=
  prepare_blockGasLimit ;;;
  prepare_gasLimit ;;;
  prepare_gasPrice ;;;
  prepare_nonce ;;;
  prepare_chainId.

(** [_send()] *)
Definition _send : M unit :=
  s <- get_state ;;
  _ <- await (ESendTransaction (tx (txn s)))
             (fun t => net_sendTransaction net t (tx (txn s))) ;;
  s <- get_state ;;
  modify (with_txn (set_submitTimestamp (net_now net (length (trace s))))) ;;;
  txHash <- await EGetHash (net_getHash net) ;;
  modify (with_txn (push_hash txHash)) ;;;
  r <- await EWaitReceipt (net_waitReceipt net) ;;
  modify (with_txn (set_receipt r)) ;;;
  emit "transactionHash" txHash ;;;
  console_log "Broadcasted transaction".

(** [_increaseGasPrice()]; [BigNumber.div] truncates. *)
Definition _increaseGasPrice : M bool :=
  s <- get_state ;;
  let maxGasPrice := parseUnits_gwei (MAX_GAS_PRICE (m_config (mgr s))) in
  let minGweiBump := parseUnits_gwei (MIN_GWEI_BUMP (m_config (mgr s))) in
  match BigNumber_from (get (tx (txn s)) "gasPrice") with
  | None => throw BigNumberError
  | Some oldGasPrice =>
      if maxGasPrice <=? oldGasPrice then
        console_log "Already at max gas price, not bumping" ;;;
        ret false
      else
        let newGasPrice :=
          bn_max
            (Z.quot (oldGasPrice * (100 + GAS_BUMP_PERCENTAGE (m_config (mgr s)))) 100)
            (oldGasPrice + minGweiBump) in
        set_field "gasPrice" (VHex (bn_min newGasPrice maxGasPrice)) ;;;
        console_log "Increasing gas price" ;;;
        ret true
  end.

(** [replace(tx)].  The assignments to the caller's object [tx] are kept
    as successive values of [tx]. *)
Definition replace (tx0 : txobj) : M unit :=
  console_log "Replacing current transaction" ;;;
  s <- get_state ;;
  if negb (executed (txn s)) then
    modify (with_txn (set_tx tx0))
  else
    tx1 <- (if falsy (get tx0 "gasLimit") then
              gas <- await (EEstimateGas tx0) (fun t => net_estimateGas net t tx0) ;;
              s <- get_state ;;
              let floored :=
                floor_mul gas (GAS_LIMIT_MULTIPLIER (m_config (mgr s))) in
              ret (put "gasLimit"
                       (Math_min floored (BLOCK_GAS_LIMIT (m_config (mgr s)))) tx0)
            else ret tx0) ;;
    s <- get_state ;;
    let tx2 := put "nonce" (get (tx (txn s)) "nonce") tx1 in
    let tx3 :=
      put "gasPrice"
          (Math_max (get (tx (txn s)) "gasPrice") (js_or (get tx2 "gasPrice") (VNum 0)))
          tx2 in
    modify (with_txn (set_tx tx3)) ;;;
    _ <- _increaseGasPrice ;;
    _send.

(** [cancel()] *)
Definition cancel : M unit :=
  console_log "Canceling the transaction" ;;;
  s <- get_state ;;
  replace (put "gasLimit" (VNum 21000)
          (put "value" (VNum 0)
          (put "to" (VStr (t_address (txn s)))
          (put "from" (VStr (t_address (txn s))) ∅)))).

(** [this.manager._mutex.acquire()]: suspended while the mutex is held. *)
Definition acquire : M unit :=
  fun s =>
    if m_locked (mgr s) then (Pending, s)
    else (Ok tt, with_mgr (set_locked true) s).

(** [mutexRelease()] *)
Definition mutexRelease : State -> State := with_mgr (set_locked false).

(** [_execute()] *)
Definition _execute : M (option Receipt) :=
  acquire ;;;
  try_finally
    (_prepare ;;;
     _send ;;;
     s <- get_state ;;
     modify (with_mgr (set_nonce (js_add1 (get (tx (txn s)) "nonce")))) ;;;
     s <- get_state ;;
     ret (receipt (txn s)))
    mutexRelease.

(** [send()]: throws at once when already executed; otherwise starts
    [_execute] and returns the emitter, whatever becomes of [_execute]. *)
Definition send : M unit :=
  s <- get_state ;;
  if executed (txn s) then throw AlreadyExecutedError
  else
    modify (with_txn (set_executed true)) ;;;
    fun s =>
      match _execute s with
      | (Ok r, s') => (Ok tt, with_txn (set_promise (Resolved r)) s')
      | (Throw e, s') => (Ok tt, with_txn (set_promise (Rejected e)) s')
      | (Pending, s') => (Ok tt, s')
      end.

End Methods.

(** ** Reading a trace *)

(** The requests handed to [sendTransaction], oldest first. *)
Fixpoint sent_requests (tr : list event) : list txobj :=
  match tr with
  | [] => []
  | ESendTransaction req :: tr' => req :: sent_requests tr'
  | _ :: tr' => sent_requests tr'
  end.

(** How many times the account's transaction count was asked for. *)
Fixpoint nonce_queries (tr : list event) : nat :=
  match tr with
  | [] => 0%nat
  | EGetTransactionCount _ :: tr' => S (nonce_queries tr')
  | _ :: tr' => nonce_queries tr'
  end.

(** The hashes announced by [transactionHash] events, oldest first. *)
Fixpoint emitted (tr : list event) : list string :=
  match tr with
  | [] => []
  | EEmit _ h :: tr' => h :: emitted tr'
  | _ :: tr' => emitted tr'
  end.

(** Whether an event is a question to the network collaborator. *)
Definition is_network (e : event) : bool :=
  match e with
  | EEmit _ _ | ELog _ => false
  | _ => true
  end.

Fixpoint network_calls (tr : list event) : nat :=
  match tr with
  | [] => 0%nat
  | e :: tr' => ((if is_network e then 1 else 0) + network_calls tr')%nat
  end.

(** The manager's nonce is unset or a number: what the constructor of the
    manager and the two writers in this class ever store. *)
Definition nonce_wf (v : value) : Prop := v = VUndefined \/ exists n, v = VNum n.

(** A caller's use of a transaction after [send]. *)
Inductive call : Type :=
  | CallReplace (tx0 : txobj)
  | CallCancel.

Definition do_call (net : Network) (c : call) : M unit :=
  match c with
  | CallReplace tx0 => replace net tx0
  | CallCancel => cancel net
  end.

Definition run_call (net : Network) (c : call) (s : State) : State :=
  snd (do_call net c s).

(** The calls of a list one after the other, each on the state its
    predecessor left, whatever its outcome was. *)
Definition run_calls (net : Network) (cs : list call) (s : State) : State :=
  fold_left (fun st c => run_call net c st) cs s.

(** [k] escalation steps in a row. *)
Fixpoint escalate (k : nat) (s : State) : State :=
  match k with
  | O => s
  | S k' => escalate k' (snd (_increaseGasPrice s))
  end.

(** Whole gwei in wei. *)
Definition gwei (n : Z) : Z := n * 10 ^ 9.

(** [1.2] as the double the source's literal denotes. *)
Definition one_point_two : float := (0x1.3333333333333p+0)%float.

(** ** Networks that answer *)

Definition is_reply {A} (r : reply A) : bool :=
  match r with Reply _ => true | _ => false end.

(** Every question that [_prepare] can ask is answered, whenever asked. *)
Definition prepare_answered (net : Network) : Prop :=
  (forall t, is_reply (net_getBlock net t) = true) /\
  (forall t req, is_reply (net_estimateGas net t req) = true) /\
  (forall t, is_reply (net_gasPrice net t) = true) /\
  (forall t a, is_reply (net_getTransactionCount net t a) = true) /\
  (forall t, is_reply (net_getChainId net t) = true).

(** Every request is signed and broadcast, and its hash returned. *)
Definition broadcast_answered (net : Network) : Prop :=
  (forall t req, is_reply (net_sendTransaction net t req) = true) /\
  (forall t, is_reply (net_getHash net t) = true).

(** Every receipt arrives. *)
Definition receipt_answered (net : Network) : Prop :=
  forall t, is_reply (net_waitReceipt net t) = true.

(** ** Scenarios

    A manager of a fresh process, a network whose every answer arrives, and
    variations of the two, for the examples below. *)

Definition cfg0 : Config :=
  {| GAS_LIMIT_MULTIPLIER := one_point_two;
     BLOCK_GAS_LIMIT := VNum 60000;
     ESTIMATE_GAS := false;
     MAX_GAS_PRICE := 1000;
     MIN_GWEI_BUMP := 5;
     GAS_BUMP_PERCENTAGE := 10 |}.

(** No nonce yet, the mutex free. *)
Definition m0 : Manager :=
  {| m_address := "0xme"; m_nonce := VUndefined; m_locked := false;
     m_config := cfg0 |}.

(** The account has seven mined transactions; hash and receipt arrive. *)
Definition net0 : Network :=
  {| net_getBlock := fun _ => Reply 20000000;
     net_estimateGas := fun _ _ => Reply 40000;
     net_gasPrice := fun _ => Reply (gwei 100);
     net_getTransactionCount := fun _ _ => Reply 7;
     net_getChainId := fun _ => Reply 42220;
     net_sendTransaction := fun _ _ => Reply tt;
     net_getHash := fun _ => Reply "0xA1"%string;
     net_waitReceipt := fun _ => Reply {| r_hash := "0xA1"; r_block := 1 |};
     net_now := fun t => Z.of_nat t |}.

(** The same network, but no receipt ever arrives. *)
Definition net_stuck : Network :=
  {| net_getBlock := net_getBlock net0;
     net_estimateGas := net_estimateGas net0;
     net_gasPrice := net_gasPrice net0;
     net_getTransactionCount := net_getTransactionCount net0;
     net_getChainId := net_getChainId net0;
     net_sendTransaction := net_sendTransaction net0;
     net_getHash := net_getHash net0;
     net_waitReceipt := fun _ => NoReply;
     net_now := net_now net0 |}.

(** The same network, but the wait for the receipt fails. *)
Definition net_no_receipt : Network :=
  {| net_getBlock := net_getBlock net0;
     net_estimateGas := net_estimateGas net0;
     net_gasPrice := net_gasPrice net0;
     net_getTransactionCount := net_getTransactionCount net0;
     net_getChainId := net_getChainId net0;
     net_sendTransaction := net_sendTransaction net0;
     net_getHash := net_getHash net0;
     net_waitReceipt := fun _ => Reject 2;
     net_now := net_now net0 |}.

(** The same network, but the broadcast is rejected. *)
Definition net_reject : Network :=
  {| net_getBlock := net_getBlock net0;
     net_estimateGas := net_estimateGas net0;
     net_gasPrice := net_gasPrice net0;
     net_getTransactionCount := net_getTransactionCount net0;
     net_getChainId := net_getChainId net0;
     net_sendTransaction := fun _ _ => Reject 1;
     net_getHash := net_getHash net0;
     net_waitReceipt := net_waitReceipt net0;
     net_now := net_now net0 |}.

(** The network of [net0], the gas estimate being [g]. *)
Definition net_estimate (g : Z) : Network :=
  {| net_getBlock := net_getBlock net0;
     net_estimateGas := fun _ _ => Reply g;
     net_gasPrice := net_gasPrice net0;
     net_getTransactionCount := net_getTransactionCount net0;
     net_getChainId := net_getChainId net0;
     net_sendTransaction := net_sendTransaction net0;
     net_getHash := net_getHash net0;
     net_waitReceipt := net_waitReceipt net0;
     net_now := net_now net0 |}.

(** A transfer of value 1. *)
Definition transfer : txobj := put "value" (VNum 1) (put "to" (VStr "0xyou") ∅).

(** A transaction just created by the manager. *)
Definition s0 : State :=
  {| mgr := m0; txn := new_Transaction transfer m0; trace := [] |}.

(** The same, the manager holding a stored nonce [v]. *)
Definition s_nonce (v : value) : State :=
  {| mgr := set_nonce v m0; txn := new_Transaction transfer m0; trace := [] |}.

(** A state whose request carries gas price [p], under config [c]. *)
Definition s_price (c : Config) (p : value) : State :=
  {| mgr := {| m_address := "0xme"; m_nonce := VNum 8; m_locked := false;
               m_config := c |};
     txn := set_executed true (set_tx (put "gasPrice" p transfer)
                                      (new_Transaction transfer m0));
     trace := [] |}.

(** The config of the spec's escalation examples. *)
Definition cfg_bump (K B M : Z) : Config :=
  {| GAS_LIMIT_MULTIPLIER := one_point_two;
     BLOCK_GAS_LIMIT := VNum 60000;
     ESTIMATE_GAS := false;
     MAX_GAS_PRICE := M;
     MIN_GWEI_BUMP := B;
     GAS_BUMP_PERCENTAGE := K |}.

(** ** Further readings of a trace, and several transactions in a row *)

(** The events of a trace that satisfy [p]. *)
Fixpoint count_events (p : event -> bool) (tr : list event) : nat :=
  match tr with
  | [] => 0%nat
  | e :: tr' => ((if p e then 1 else 0) + count_events p tr')%nat
  end.

Definition is_getBlock (e : event) : bool :=
  match e with EGetBlock => true | _ => false end.
Definition is_estimateGas (e : event) : bool :=
  match e with EEstimateGas _ => true | _ => false end.
Definition is_gasPriceOracle (e : event) : bool :=
  match e with EGasPriceOracle => true | _ => false end.

(** The fields that [_prepare] assigns. *)
Definition prepared_field (k : string) : bool :=
  if decide (k = "gasLimit") then true
  else if decide (k = "gasPrice") then true
  else if decide (k = "nonce") then true
  else if decide (k = "chainId") then true
  else false.

(** [manager.createTransaction(tx).send()] for each request of a list, one
    after the other: every transaction is created by the manager as the
    previous one left it, and finds the trace the previous one left.  The
    result is the transactions as their [send] left them, the manager and
    the trace. *)
Fixpoint send_each (net : Network) (reqs : list txobj) (m : Manager)
    (tr : list event) : list Transaction * Manager * list event :=
  match reqs with
  | [] => ([], m, tr)
  | req :: reqs' =>
      let s' := snd (send net {| mgr := m; txn := new_Transaction req m;
                                 trace := tr |}) in
      let '(ts, m', tr') := send_each net reqs' (mgr s') (trace s') in
      (txn s' :: ts, m', tr')
  end.

(** The account's transaction count is never negative. *)
Definition counts_nonneg (net : Network) : Prop :=
  forall t a n, net_getTransactionCount net t a = Reply n -> 0 <= n.

(** The manager's nonce is unset or a natural number. *)
Definition nonce_nat (v : value) : Prop :=
  v = VUndefined \/ exists n, 0 <= n /\ v = VNum n.

(** The caller's view after a call: the hashes recorded so far. *)
Definition all_recorded (s : State) : Prop :=
  forall h, In h (emitted (trace s)) -> In h (hashes (txn s)).

(** [s'] has the hashes and the events of [s] and maybe more, every further
    event carrying one of the further hashes. *)
Definition records_more (s s' : State) : Prop :=
  exists hs es,
    hashes (txn s') = hashes (txn s) ++ hs /\
    emitted (trace s') = emitted (trace s) ++ es /\
    (forall h, In h es -> In h hs) /\
    (length es <= length hs)%nat.

(** What a caller can do with a transaction. *)
Inductive action : Type :=
  | ASend
  | ACall (c : call).

Definition do_action (net : Network) (a : action) : M unit :=
  match a with
  | ASend => send net
  | ACall c => do_call net c
  end.

Definition run_actions (net : Network) (acts : list action) (s : State) : State :=
  fold_left (fun st a => snd (do_action net a st)) acts s.

(** The same network as [net0], the gas estimate being rejected. *)
Definition net_no_estimate : Network :=
  {| net_getBlock := net_getBlock net0;
     net_estimateGas := fun _ _ => Reject 3;
     net_gasPrice := net_gasPrice net0;
     net_getTransactionCount := net_getTransactionCount net0;
     net_getChainId := net_getChainId net0;
     net_sendTransaction := net_sendTransaction net0;
     net_getHash := net_getHash net0;
     net_waitReceipt := net_waitReceipt net0;
     net_now := net_now net0 |}.

(** A state like [s0] whose config has no block gas limit yet and asks for
    an estimate in any case. *)
Definition cfg_fresh : Config :=
  {| GAS_LIMIT_MULTIPLIER := one_point_two;
     BLOCK_GAS_LIMIT := VUndefined;
     ESTIMATE_GAS := true;
     MAX_GAS_PRICE := 1000;
     MIN_GWEI_BUMP := 5;
     GAS_BUMP_PERCENTAGE := 10 |}.

Definition m_fresh : Manager :=
  {| m_address := "0xme"; m_nonce := VUndefined; m_locked := false;
     m_config := cfg_fresh |}.

(** A request that brings its own gas limit, gas price, nonce and sender. *)
Definition explicit : txobj :=
  put "gasLimit" (VNum 30000)
  (put "gasPrice" (VHex (gwei 2000))
  (put "nonce" (VNum 99)
  (put "from" (VStr "0xother") transfer))).

(** A replacement that names a destination and nothing else. *)
Definition only_to : txobj := put "to" (VStr "0xother") ∅.

Definition s_fresh : State :=
  {| mgr := m_fresh; txn := new_Transaction explicit m_fresh; trace := [] |}.

(** * Properties *)

Arguments get : simpl never.
Arguments put : simpl never.
Arguments floor_mul : simpl never.
Arguments Math_min : simpl never.
Arguments Math_max : simpl never.
Arguments falsy : simpl never.
Arguments js_or : simpl never.
Arguments js_add1 : simpl never.
Arguments BigNumber_from : simpl never.
Arguments parseUnits_gwei : simpl never.
Arguments bn_min : simpl never.
Arguments bn_max : simpl never.
Arguments _prepare : simpl never.
Arguments _send : simpl never.
Arguments _increaseGasPrice : simpl never.
Arguments _execute : simpl never.
Arguments replace : simpl never.
Arguments cancel : simpl never.
Arguments send : simpl never.

(** ** Objects and traces *)

Lemma get_put_eq k v (o : txobj) : get (put k v o) k = v.
Proof. unfold get, put. by rewrite lookup_insert_eq. Qed.

Lemma get_put_ne k k' v (o : txobj) : k ≠ k' → get (put k v o) k' = get o k'.
Proof. intros Hne. unfold get, put. by rewrite lookup_insert_ne. Qed.

Lemma sent_requests_app tr1 tr2 :
  sent_requests (tr1 ++ tr2) = sent_requests tr1 ++ sent_requests tr2.
Proof.
  induction tr1 as [|e tr1 IH]; [done|].
  destruct e; cbn; rewrite ?IH; done.
Qed.

Lemma nonce_queries_app tr1 tr2 :
  nonce_queries (tr1 ++ tr2) = (nonce_queries tr1 + nonce_queries tr2)%nat.
Proof.
  induction tr1 as [|e tr1 IH]; [done|].
  destruct e; cbn; rewrite ?IH; done.
Qed.

Lemma emitted_app tr1 tr2 : emitted (tr1 ++ tr2) = emitted tr1 ++ emitted tr2.
Proof.
  induction tr1 as [|e tr1 IH]; [done|].
  destruct e; cbn; rewrite ?IH; done.
Qed.

Lemma network_calls_app tr1 tr2 :
  network_calls (tr1 ++ tr2) = (network_calls tr1 + network_calls tr2)%nat.
Proof.
  induction tr1 as [|e tr1 IH]; [done|].
  cbn. rewrite IH. lia.
Qed.

(** ** Symbolic execution of a method *)

Ltac unfold_methods :=
  unfold send, _execute, cancel, replace, _increaseGasPrice, _send, _prepare,
    prepare_chainId, prepare_nonce, prepare_gasPrice, prepare_gasLimit,
    prepare_blockGasLimit, _getLastNonce, acquire, mutexRelease, try_finally,
    set_field, emit, console_log, await, modify, get_state, throw, bind, ret.

Ltac split_match :=
  match goal with
  | |- context [match ?x with _ => _ end] =>
      lazymatch x with
      | context [match _ with _ => _ end] => fail
      | _ => destruct x eqn:?
      end
  end.

Ltac trace_simpl :=
  rewrite ?sent_requests_app, ?nonce_queries_app, ?emitted_app,
    ?network_calls_app; cbn.

Ltac run := unfold_methods; cbn; repeat (split_match; cbn).

Section Frames.

Variable net : Network.

(** [_send] writes neither the manager nor the request, and hands exactly
    the current request to the network. *)
Lemma _send_frame s :
  let s' := snd (_send net s) in
  mgr s' = mgr s ∧ tx (txn s') = tx (txn s) ∧
  executed (txn s') = executed (txn s) ∧
  t_address (txn s') = t_address (txn s) ∧
  sent_requests (trace s') = sent_requests (trace s) ++ [tx (txn s)] ∧
  nonce_queries (trace s') = nonce_queries (trace s).
Proof.
  run; trace_simpl; rewrite ?app_nil_r, ?Nat.add_0_r; repeat split; done.
Qed.

(** An escalation step writes the [gasPrice] field and nothing else. *)
Lemma _increaseGasPrice_frame s :
  let s' := snd (_increaseGasPrice s) in
  mgr s' = mgr s ∧
  (∀ k, k ≠ "gasPrice" → get (tx (txn s')) k = get (tx (txn s)) k) ∧
  executed (txn s') = executed (txn s) ∧
  t_address (txn s') = t_address (txn s) ∧
  sent_requests (trace s') = sent_requests (trace s) ∧
  nonce_queries (trace s') = nonce_queries (trace s).
Proof.
  run; trace_simpl; rewrite ?app_nil_r, ?Nat.add_0_r; repeat split;
    try done; intros; by rewrite get_put_ne.
Qed.

End Frames.

Section Prepare.

Variable net : Network.

(** What [_prepare] does to the manager's nonce and to the request's: a
    stored nonce that passes the test of line 117 is reused without a
    query; otherwise the count is asked for once, and stored when the
    answer arrives. *)
Lemma _prepare_nonce s :
  let r := _prepare net s in
  let s' := snd r in
  m_locked (mgr s') = m_locked (mgr s) ∧
  executed (txn s') = executed (txn s) ∧
  t_address (txn s') = t_address (txn s) ∧
  sent_requests (trace s') = sent_requests (trace s) ∧
  if falsy (m_nonce (mgr s)) then
    (m_nonce (mgr s') = m_nonce (mgr s) ∧ fst r ≠ Ok tt ∧
     (nonce_queries (trace s') ≤ nonce_queries (trace s) + 1)%nat) ∨
    (∃ t n, net_getTransactionCount net t (t_address (txn s)) = Reply n ∧
            m_nonce (mgr s') = VNum n ∧
            nonce_queries (trace s') = (nonce_queries (trace s) + 1)%nat ∧
            (fst r = Ok tt → get (tx (txn s')) "nonce" = VNum n))
  else
    m_nonce (mgr s') = m_nonce (mgr s) ∧
    nonce_queries (trace s') = nonce_queries (trace s) ∧
    (fst r = Ok tt → get (tx (txn s')) "nonce" = m_nonce (mgr s)).
Proof.
  run; trace_simpl; rewrite ?app_nil_r, ?Nat.add_0_r;
    (split; [done|]); (split; [done|]); (split; [done|]); (split; [done|]);
    first
      [ left; split; [done|]; split; [done|]; lia
      | right; eexists _, _; split; [eassumption|]; split; [reflexivity|];
        split; [lia|]; first [ done | intros _; rewrite get_put_ne by done;
                                      by rewrite get_put_eq ]
      | split; [done|]; split; [done|];
        first [ done | intros _; rewrite get_put_ne by done;
                       by rewrite get_put_eq ] ].
Qed.

End Prepare.

Section Execute.

Variable net : Network.

(** [_execute] in terms of its two awaited procedures. *)
Lemma _execute_unfold s :
  _execute net s =
  if m_locked (mgr s) then (Pending, s)
  else
    match _prepare net (with_mgr (set_locked true) s) with
    | (Ok _, s2) =>
        match _send net s2 with
        | (Ok _, s3) =>
            (Ok (receipt (txn s3)),
             mutexRelease
               (with_mgr (set_nonce (js_add1 (get (tx (txn s3)) "nonce"))) s3))
        | (Throw e, s3) => (Throw e, mutexRelease s3)
        | (Pending, s3) => (Pending, s3)
        end
    | (Throw e, s2) => (Throw e, mutexRelease s2)
    | (Pending, s2) => (Pending, s2)
    end.
Proof.
  unfold _execute, acquire, try_finally, bind, modify, get_state, ret.
  destruct (m_locked (mgr s)); [done|].
  destruct (_prepare net _) as [[[]|e|] s2]; [|done|done].
  destruct (_send net s2) as [[[]|e|] s3]; done.
Qed.

(** By outcome: when [_execute] returns, the manager's nonce is the nonce
    of the request last handed to the network, plus one; otherwise line 86
    has not run, and the stored nonce is the one found at entry, or, if
    none was stored, the count that [_prepare] fetched. *)
Lemma _execute_outcome_nonce s :
  nonce_wf (m_nonce (mgr s)) →
  let r := _execute net s in
  let s' := snd r in
  match fst r with
  | Ok _ =>
      ∃ n req, last (sent_requests (trace s')) = Some req ∧
               get req "nonce" = VNum n ∧
               get (tx (txn s')) "nonce" = VNum n ∧
               m_nonce (mgr s') = VNum (n + 1)
  | _ =>
      m_nonce (mgr s') = m_nonce (mgr s) ∨
      (falsy (m_nonce (mgr s)) = true ∧
       ∃ t n, net_getTransactionCount net t (t_address (txn s)) = Reply n ∧
              m_nonce (mgr s') = VNum n)
  end.
Proof.
  intros Hwf. cbn zeta. rewrite _execute_unfold.
  destruct (m_locked (mgr s)) eqn:Hl; [by left|].
  pose proof (_prepare_nonce net (with_mgr (set_locked true) s)) as Hp.
  cbn zeta in Hp.
  destruct (_prepare net _) as [o1 s2]. cbn [fst snd] in Hp.
  destruct Hp as (_ & _ & Haddr & _ & Hn). cbn in Hn, Haddr.
  assert (Hfail :
    m_nonce (mgr s2) = m_nonce (mgr s) ∨
    (falsy (m_nonce (mgr s)) = true ∧
     ∃ t n, net_getTransactionCount net t (t_address (txn s)) = Reply n ∧
            m_nonce (mgr s2) = VNum n)).
  { destruct (falsy (m_nonce (mgr s))).
    - destruct Hn as [(? & _)|(t & n & ? & ? & _)]; [by left|].
      right. split; [done|]. by exists t, n.
    - left. by destruct Hn. }
  assert (Hok : o1 = Ok tt → ∃ n, get (tx (txn s2)) "nonce" = VNum n).
  { intros ->. destruct (falsy (m_nonce (mgr s))) eqn:Hf.
    - destruct Hn as [(_ & Hne & _)|(t & n & _ & _ & _ & Hget)]; [done|].
      exists n. by apply Hget.
    - destruct Hn as (_ & _ & Hget). rewrite Hget by done.
      destruct Hwf as [Hu|[n Hv]]; [by rewrite Hu in Hf|by exists n]. }
  destruct o1 as [[]|e|]; cbn; [|done|done].
  pose proof (_send_frame net s2) as Hs. cbn zeta in Hs.
  destruct (_send net s2) as [o2 s3]. cbn [fst snd] in Hs.
  destruct Hs as (Hmgr & Htx & _ & _ & Hsent & _).
  destruct o2 as [[]|e|]; cbn; rewrite ?Hmgr; [|done|done].
  destruct Hok as [n Hget]; [done|].
  exists n, (tx (txn s2)).
  rewrite Hsent, last_snoc, Htx, Hget. done.
Qed.

Ltac unanswered :=
  match goal with
  | H : ∀ t, is_reply (net_getBlock ?n t) = true,
    E : net_getBlock ?n ?t0 = _ |- _ =>
      specialize (H t0); rewrite E in H; discriminate H
  | H : ∀ t req, is_reply (net_estimateGas ?n t req) = true,
    E : net_estimateGas ?n ?t0 ?r0 = _ |- _ =>
      specialize (H t0 r0); rewrite E in H; discriminate H
  | H : ∀ t, is_reply (net_gasPrice ?n t) = true,
    E : net_gasPrice ?n ?t0 = _ |- _ =>
      specialize (H t0); rewrite E in H; discriminate H
  | H : ∀ t a, is_reply (net_getTransactionCount ?n t a) = true,
    E : net_getTransactionCount ?n ?t0 ?a0 = _ |- _ =>
      specialize (H t0 a0); rewrite E in H; discriminate H
  | H : ∀ t, is_reply (net_getChainId ?n t) = true,
    E : net_getChainId ?n ?t0 = _ |- _ =>
      specialize (H t0); rewrite E in H; discriminate H
  | H : ∀ t req, is_reply (net_sendTransaction ?n t req) = true,
    E : net_sendTransaction ?n ?t0 ?r0 = _ |- _ =>
      specialize (H t0 r0); rewrite E in H; discriminate H
  | H : ∀ t, is_reply (net_getHash ?n t) = true,
    E : net_getHash ?n ?t0 = _ |- _ =>
      specialize (H t0); rewrite E in H; discriminate H
  | H : ∀ t, is_reply (net_waitReceipt ?n t) = true,
    E : net_waitReceipt ?n ?t0 = _ |- _ =>
      specialize (H t0); rewrite E in H; discriminate H
  end.

(** A preparation whose questions are all answered completes. *)
Lemma _prepare_answered s : prepare_answered net → fst (_prepare net s) = Ok tt.
Proof.
  intros (Hb & He & Hg & Hc & Hi).
  run; first [done | exfalso; unanswered].
Qed.

(** A rejected estimate that the preparation needs makes it throw that
    rejection, before the manager's nonce is touched. *)
Lemma _prepare_estimate_rejected s code :
  (∀ t, is_reply (net_getBlock net t) = true) →
  (∀ t req, net_estimateGas net t req = Reject code) →
  falsy (get (tx (txn s)) "gasLimit") || ESTIMATE_GAS (m_config (mgr s)) = true →
  fst (_prepare net s) = Throw (NetworkError code) ∧
  m_nonce (mgr (snd (_prepare net s))) = m_nonce (mgr s).
Proof.
  intros Hb He Hneed.
  run; try (exfalso; unanswered); try congruence;
    match goal with
    | E : net_estimateGas net ?t0 ?r0 = _ |- _ =>
        rewrite (He t0 r0) in E; first [discriminate E | by injection E as <-]
    end.
Qed.

(** A submission whose broadcast and receipt arrive completes, the
    receipt stored. *)
Lemma _send_answered s :
  broadcast_answered net → receipt_answered net →
  ∃ rcpt, fst (_send net s) = Ok tt ∧
          receipt (txn (snd (_send net s))) = Some rcpt.
Proof.
  intros (Hs & Hh) Hr. unfold receipt_answered in Hr.
  run; first [eexists; split; reflexivity | exfalso; unanswered].
Qed.

Lemma _send_broadcast_rejected s code :
  (∀ t req, net_sendTransaction net t req = Reject code) →
  fst (_send net s) = Throw (NetworkError code).
Proof.
  intros Hrej. unfold _send, bind at 1, get_state. cbn.
  unfold bind at 1, await. by rewrite Hrej.
Qed.

Lemma _send_receipt_rejected s code :
  broadcast_answered net →
  (∀ t, net_waitReceipt net t = Reject code) →
  fst (_send net s) = Throw (NetworkError code).
Proof.
  intros (Hs & Hh) Hrej.
  run; try (exfalso; unanswered);
    match goal with
    | E : net_waitReceipt net ?t0 = _ |- _ =>
        rewrite (Hrej t0) in E; first [discriminate E | by injection E as <-]
    end.
Qed.

(** What [_prepare] leaves when it completes: the request carries the
    manager's nonce, which is the stored one if that was not [0] or unset,
    and else a count that the network reported. *)
Lemma _prepare_ok_nonce s :
  nonce_wf (m_nonce (mgr s)) →
  fst (_prepare net s) = Ok tt →
  let s' := snd (_prepare net s) in
  ∃ n, get (tx (txn s')) "nonce" = VNum n ∧ m_nonce (mgr s') = VNum n ∧
       if falsy (m_nonce (mgr s))
       then ∃ t, net_getTransactionCount net t (t_address (txn s)) = Reply n
       else m_nonce (mgr s) = VNum n.
Proof.
  intros Hwf Hok. cbn zeta.
  destruct (_prepare_nonce net s) as (_ & _ & _ & _ & Hn). cbn zeta in Hn.
  destruct (falsy (m_nonce (mgr s))) eqn:Hf.
  - destruct Hn as [(_ & Hne & _)|(t & n & Hr & Hm & _ & Hget)]; [done|].
    exists n. split; [by apply Hget|]. split; [done|]. by exists t.
  - destruct Hn as (Hm & _ & Hget).
    destruct Hwf as [Hu|[n Hv]]; [by rewrite Hu in Hf|].
    exists n. rewrite Hget, Hm, Hv by done. done.
Qed.

(** C1: with the mutex free and every question answered, [_execute]
    returns the receipt and has set the manager's nonce to the nonce of
    the request it handed to the network, plus one; that nonce is the
    stored one or, if none (or [0]) was stored, the account's transaction
    count.  When a step fails the manager is not moved on: a rejected
    estimate leaves the stored nonce untouched, a rejected broadcast and a
    failed wait for the receipt leave on the manager the very nonce the
    failed request carries (the stored one, if one was stored), and so
    does every throw and every suspension, whatever its cause. *)
Theorem execute_advances_nonce s :
  nonce_wf (m_nonce (mgr s)) →
  let r := _execute net s in
  let s' := snd r in
  (m_locked (mgr s) = false →
   prepare_answered net → broadcast_answered net → receipt_answered net →
   ∃ n rcpt,
     fst r = Ok (Some rcpt) ∧
     last (sent_requests (trace s')) = Some (tx (txn s')) ∧
     get (tx (txn s')) "nonce" = VNum n ∧
     m_nonce (mgr s') = VNum (n + 1) ∧
     if falsy (m_nonce (mgr s))
     then ∃ t, net_getTransactionCount net t (t_address (txn s)) = Reply n
     else m_nonce (mgr s) = VNum n) ∧
  (∀ code,
     m_locked (mgr s) = false →
     (∀ t, is_reply (net_getBlock net t) = true) →
     (∀ t req, net_estimateGas net t req = Reject code) →
     falsy (get (tx (txn s)) "gasLimit") || ESTIMATE_GAS (m_config (mgr s)) = true →
     fst r = Throw (NetworkError code) ∧ m_nonce (mgr s') = m_nonce (mgr s)) ∧
  (∀ code,
     m_locked (mgr s) = false →
     prepare_answered net →
     (∀ t req, net_sendTransaction net t req = Reject code) ∨
     (broadcast_answered net ∧ ∀ t, net_waitReceipt net t = Reject code) →
     fst r = Throw (NetworkError code) ∧
     m_nonce (mgr s') = get (tx (txn s')) "nonce" ∧
     (falsy (m_nonce (mgr s)) = false → m_nonce (mgr s') = m_nonce (mgr s))) ∧
  match fst r with
  | Ok _ =>
      ∃ n req, last (sent_requests (trace s')) = Some req ∧
               get req "nonce" = VNum n ∧
               get (tx (txn s')) "nonce" = VNum n ∧
               m_nonce (mgr s') = VNum (n + 1)
  | _ =>
      m_nonce (mgr s') = m_nonce (mgr s) ∨
      (falsy (m_nonce (mgr s)) = true ∧
       ∃ t n, net_getTransactionCount net t (t_address (txn s)) = Reply n ∧
              m_nonce (mgr s') = VNum n)
  end.
Proof.
  intros Hwf. cbn zeta.
  split; [|split; [|split; [|exact (_execute_outcome_nonce s Hwf)]]].
  - intros Hl Hp Hb Hr. rewrite _execute_unfold, Hl.
    pose proof (_prepare_answered (with_mgr (set_locked true) s) Hp) as Hok.
    pose proof (_prepare_ok_nonce (with_mgr (set_locked true) s) Hwf Hok) as Hn.
    cbn zeta in Hn.
    destruct (_prepare net _) as [o1 s2]. cbn [fst snd] in *. subst o1.
    destruct Hn as (n & Hget & Hm & Hsrc). cbn in Hsrc.
    destruct (_send_answered s2 Hb Hr) as (rcpt & Hsok & Hrc).
    pose proof (_send_frame net s2) as (Hmgr & Htx & _ & _ & Hsent & _).
    destruct (_send net s2) as [o2 s3]. cbn [fst snd] in *. subst o2.
    cbn. exists n, rcpt.
    rewrite Hrc, Hsent, last_snoc, Htx, Hget. done.
  - intros code Hl Hb He Hneed. rewrite _execute_unfold, Hl.
    destruct (_prepare_estimate_rejected (with_mgr (set_locked true) s) code
                Hb He Hneed) as (Hthrow & Hm).
    destruct (_prepare net _) as [o1 s2]. cbn [fst snd] in *. subst o1.
    cbn. done.
  - intros code Hl Hp Hfail. rewrite _execute_unfold, Hl.
    pose proof (_prepare_answered (with_mgr (set_locked true) s) Hp) as Hok.
    pose proof (_prepare_ok_nonce (with_mgr (set_locked true) s) Hwf Hok) as Hn.
    cbn zeta in Hn.
    destruct (_prepare net _) as [o1 s2]. cbn [fst snd] in *. subst o1.
    destruct Hn as (n & Hget & Hm & Hsrc). cbn in Hsrc.
    assert (Hthrow : fst (_send net s2) = Throw (NetworkError code)).
    { destruct Hfail as [Hrej|[Hb Hrej]].
      - by apply _send_broadcast_rejected.
      - by apply _send_receipt_rejected. }
    pose proof (_send_frame net s2) as (Hmgr & Htx & _).
    destruct (_send net s2) as [o2 s3]. cbn [fst snd] in *. subst o2.
    cbn. rewrite Hmgr, Htx, Hget, Hm. split; [done|]. split; [done|].
    intros Hf. rewrite Hf in Hsrc. by rewrite Hsrc.
Qed.

(** C9: whenever [_execute] returns or throws, the mutex is free again;
    it is held only while the method has not exited. *)
Theorem execute_releases_gate s :
  let r := _execute net s in
  match fst r with
  | Ok _ | Throw _ => m_locked (mgr (snd r)) = false
  | Pending => m_locked (mgr (snd r)) = true
  end.
Proof.
  cbn zeta. rewrite _execute_unfold.
  destruct (m_locked (mgr s)) eqn:Hl; [done|].
  pose proof (_prepare_nonce net (with_mgr (set_locked true) s)) as Hp.
  cbn zeta in Hp.
  destruct (_prepare net _) as [o1 s2]. cbn [fst snd] in Hp.
  destruct Hp as (Hlock & _). cbn in Hlock.
  destruct o1 as [[]|e|]; cbn; [|done|done].
  pose proof (_send_frame net s2) as Hs. cbn zeta in Hs.
  destruct (_send net s2) as [o2 s3]. cbn [fst snd] in Hs.
  destruct Hs as (Hmgr & _).
  destruct o2 as [[]|e|]; cbn; [done|done|by rewrite Hmgr].
Qed.


End Execute.

(** The spec's scenario: no cached nonce, the network reports 7, the
    receipt arrives; the manager's nonce is then 8 and the mutex is free. *)
Example scenario_send :
  let s' := snd (send net0 s0) in
  m_nonce (mgr s') = VNum 8 ∧ m_locked (mgr s') = false ∧
  get (tx (txn s')) "nonce" = VNum 7 ∧
  t_promise (txn s') = Resolved (Some {| r_hash := "0xA1"; r_block := 1 |}).
Proof. vm_compute. done. Qed.

(** A rejected broadcast: the nonce fetched by [_prepare] stays, one is
    not added, and the mutex is free. *)
Example scenario_reject :
  let s' := snd (send net_reject s0) in
  m_nonce (mgr s') = VNum 7 ∧ m_locked (mgr s') = false ∧
  t_promise (txn s') = Rejected (NetworkError 1).
Proof. vm_compute. done. Qed.

(** A failed wait for the receipt: the hash is recorded, the promise is
    rejected, and the manager holds 7, the nonce of the request that went
    out. *)
Example scenario_no_receipt :
  let s' := snd (send net_no_receipt s0) in
  t_promise (txn s') = Rejected (NetworkError 2) ∧
  hashes (txn s') = ["0xA1"%string] ∧
  get (tx (txn s')) "nonce" = VNum 7 ∧ m_nonce (mgr s') = VNum 7 ∧
  m_locked (mgr s') = false.
Proof. vm_compute. done. Qed.

(** A rejected broadcast from a manager whose stored nonce is [0]: line 117
    takes the [0] for no nonce, the count is fetched, and the manager holds
    it, 7, the nonce of the request that failed. *)
Example scenario_reject_from_zero :
  let s' := snd (_execute net_reject (s_nonce (VNum 0))) in
  fst (_execute net_reject (s_nonce (VNum 0))) = Throw (NetworkError 1) ∧
  get (tx (txn s')) "nonce" = VNum 7 ∧ m_nonce (mgr s') = VNum 7.
Proof. vm_compute. done. Qed.

(** [execute_advances_nonce] at the scenario of a fresh manager whose
    account has seven transactions: the receipt comes back and the manager
    holds 8. *)
Lemma execute_advances_nonce_witness :
  nonce_wf (m_nonce (mgr s0)) ∧ m_locked (mgr s0) = false ∧
  prepare_answered net0 ∧ broadcast_answered net0 ∧ receipt_answered net0 ∧
  fst (_execute net0 s0) = Ok (Some {| r_hash := "0xA1"; r_block := 1 |}) ∧
  get (tx (txn (snd (_execute net0 s0)))) "nonce" = VNum 7 ∧
  m_nonce (mgr (snd (_execute net0 s0))) = VNum 8.
Proof.
  assert (Hwf : nonce_wf (m_nonce (mgr s0))) by (left; reflexivity).
  assert (Hp : prepare_answered net0) by (repeat split; intros; reflexivity).
  assert (Hb : broadcast_answered net0) by (repeat split; intros; reflexivity).
  assert (Hr : receipt_answered net0) by (intros t; reflexivity).
  split; [exact Hwf|]. split; [reflexivity|]. split; [exact Hp|].
  split; [exact Hb|]. split; [exact Hr|].
  destruct (execute_advances_nonce net0 s0 Hwf) as (H & _).
  destruct (H eq_refl Hp Hb Hr) as (n & rcpt & Hok & _ & Hget & Hm & Hsrc).
  cbn in Hsrc. destruct Hsrc as [t Hsrc]. injection Hsrc as <-.
  split; [|split; [exact Hget|exact Hm]].
  vm_compute. reflexivity.
Defined.



Section Calls.

Variable net : Network.

(** [replace] on an executed transaction: the request keeps its nonce,
    every request handed to the network carries it, and a call that
    returns has handed over exactly one. *)
Lemma replace_executed tx0 s :
  executed (txn s) = true →
  let r := replace net tx0 s in
  let s' := snd r in
  executed (txn s') = true ∧
  mgr s' = mgr s ∧
  t_address (txn s') = t_address (txn s) ∧
  get (tx (txn s')) "nonce" = get (tx (txn s)) "nonce" ∧
  (∃ reqs, sent_requests (trace s') = sent_requests (trace s) ++ reqs ∧
           Forall (λ req, get req "nonce" = get (tx (txn s)) "nonce") reqs ∧
           (fst r = Ok tt → reqs = [tx (txn s')])).
Proof.
  intros He. unfold replace, bind at 1, console_log, modify. cbn.
  unfold bind at 1, get_state. cbn. rewrite He. cbn.
  run; trace_simpl; rewrite ?app_nil_r;
    repeat (rewrite ?get_put_eq; rewrite ?get_put_ne by done);
    (split; [done|]); (split; [done|]); (split; [done|]); (split; [done|]);
    first
      [ exists []; rewrite app_nil_r; split; [done|]; split; [constructor|done]
      | eexists [_]; split; [reflexivity|]; split;
        [ constructor; [|constructor];
          repeat (rewrite ?get_put_eq; rewrite ?get_put_ne by done); done
        | done ] ].
Qed.

Lemma cancel_unfold s :
  cancel net s =
  replace net (put "gasLimit" (VNum 21000)
              (put "value" (VNum 0)
              (put "to" (VStr (t_address (txn s)))
              (put "from" (VStr (t_address (txn s))) ∅))))
          (record (ELog "Canceling the transaction") s).
Proof. reflexivity. Qed.

Lemma do_call_executed c s :
  executed (txn s) = true →
  let r := do_call net c s in
  let s' := snd r in
  executed (txn s') = true ∧
  mgr s' = mgr s ∧
  get (tx (txn s')) "nonce" = get (tx (txn s)) "nonce" ∧
  (∃ reqs, sent_requests (trace s') = sent_requests (trace s) ++ reqs ∧
           Forall (λ req, get req "nonce" = get (tx (txn s)) "nonce") reqs ∧
           (fst r = Ok tt → reqs = [tx (txn s')])).
Proof.
  intros He. destruct c as [tx0|]; cbn [do_call].
  - edestruct replace_executed as (H1 & H2 & _ & H3 & H4); [exact He|].
    cbn zeta in *; eauto.
  - rewrite cancel_unfold.
    edestruct (replace_executed
                 (put "gasLimit" (VNum 21000)
                 (put "value" (VNum 0)
                 (put "to" (VStr (t_address (txn s)))
                 (put "from" (VStr (t_address (txn s))) ∅))))
                 (record (ELog "Canceling the transaction") s))
      as (H1 & H2 & _ & H3 & H4); [exact He|].
    cbn zeta in *. cbn [record trace txn mgr] in H2, H3, H4.
    rewrite sent_requests_app in H4. cbn [sent_requests] in H4.
    rewrite app_nil_r in H4. eauto.
Qed.

(** [send] marks the transaction as executed, whatever its outcome. *)
Lemma send_marks_executed s : executed (txn (snd (send net s))) = true.
Proof.
  unfold send, bind at 1, get_state. cbn.
  destruct (executed (txn s)) eqn:He; [done|].
  unfold bind, modify. cbn. rewrite _execute_unfold. cbn.
  pose proof (_prepare_nonce net
    (with_mgr (set_locked true) (with_txn (set_executed true) s))) as Hp.
  cbn zeta in Hp.
  destruct (m_locked (mgr s)); [done|].
  destruct (_prepare net _) as [o1 s2]. cbn [fst snd] in Hp.
  destruct Hp as (_ & Hex & _). cbn in Hex.
  destruct o1 as [[]|e|]; cbn; [|done|done].
  pose proof (_send_frame net s2) as Hs. cbn zeta in Hs.
  destruct (_send net s2) as [o2 s3]. cbn [fst snd] in Hs.
  destruct Hs as (_ & _ & Hex' & _).
  destruct o2 as [[]|e|]; cbn; congruence.
Qed.

End Calls.

(** Any number of [replace] and [cancel] calls on an executed transaction
    leave it executed and its nonce in place, and send nothing under
    another nonce. *)
Lemma run_calls_executed net cs : ∀ s,
  executed (txn s) = true →
  let s' := run_calls net cs s in
  executed (txn s') = true ∧
  get (tx (txn s')) "nonce" = get (tx (txn s)) "nonce" ∧
  ∃ reqs, sent_requests (trace s') = sent_requests (trace s) ++ reqs ∧
          Forall (λ req, get req "nonce" = get (tx (txn s)) "nonce") reqs.
Proof.
  induction cs as [|c cs IH]; intros s He; cbn.
  - split; [done|]. split; [done|]. exists []. by rewrite app_nil_r.
  - destruct (do_call_executed net c s He) as (He1 & _ & Hn1 & reqs1 & Hs1 & Hf1 & _).
    destruct (IH (run_call net c s) He1) as (He2 & Hn2 & reqs2 & Hs2 & Hf2).
    cbn zeta in *. unfold run_calls in *. 
    split; [done|]. split; [unfold run_call in *; congruence|].
    exists (reqs1 ++ reqs2). split.
    + unfold run_call in *. rewrite Hs2, Hs1. by rewrite app_assoc.
    + apply Forall_app. split; [done|].
      unfold run_call in *. by rewrite <- Hn1.
Qed.

(** C2: on an executed transaction, after any sequence of [replace] and
    [cancel] calls the request carries the nonce it had before them, every
    request those calls handed to the network carries that nonce, and a
    further call that returns has resubmitted exactly one request, under
    that nonce. *)
Theorem replace_cancel_preserve_nonce net cs c s :
  executed (txn s) = true →
  let s1 := run_calls net cs s in
  let r := do_call net c s1 in
  let s2 := snd r in
  get (tx (txn s1)) "nonce" = get (tx (txn s)) "nonce" ∧
  get (tx (txn s2)) "nonce" = get (tx (txn s)) "nonce" ∧
  (∃ reqs, sent_requests (trace s2) = sent_requests (trace s) ++ reqs ∧
           Forall (λ req, get req "nonce" = get (tx (txn s)) "nonce") reqs) ∧
  (fst r = Ok tt →
   ∃ req, sent_requests (trace s2) = sent_requests (trace s1) ++ [req] ∧
          get req "nonce" = get (tx (txn s)) "nonce").
Proof.
  intros He. cbn zeta.
  destruct (run_calls_executed net cs s He) as (He1 & Hn1 & reqs1 & Hs1 & Hf1).
  cbn zeta in *.
  destruct (do_call_executed net c _ He1) as (_ & _ & Hn2 & reqs2 & Hs2 & Hf2 & Hok).
  cbn zeta in *.
  split; [done|]. split; [congruence|]. split.
  - exists (reqs1 ++ reqs2). split.
    + rewrite Hs2, Hs1. by rewrite app_assoc.
    + apply Forall_app. split; [done|]. by rewrite <- Hn1.
  - intros Hr. exists (tx (txn (snd (do_call net c (run_calls net cs s))))).
    rewrite Hs2, (Hok Hr). split; [done|]. congruence.
Qed.

(** C6: [send] on a transaction that is already executed throws
    [AlreadyExecutedError] at once and leaves the transaction, the manager
    and the trace as they were; and a transaction is executed from its first
    [send] on, through every later [replace] and [cancel]. *)
Theorem send_twice_throws net net1 cs s0 s :
  executed (txn s) = true →
  send net1 s = (Throw AlreadyExecutedError, s) ∧
  executed (txn (run_calls net cs (snd (send net s0)))) = true.
Proof.
  intros He. split.
  - unfold send, bind, get_state, throw. by rewrite He.
  - by destruct (run_calls_executed net cs _ (send_marks_executed net s0)).
Qed.

(** C10: on a transaction that was not sent yet, [replace] makes the
    pending request the caller's fields and nothing else, without a
    question to the network; a field the caller left out is gone, the
    [from] that the constructor had bound included. *)
Theorem replace_before_send net tx0 s :
  executed (txn s) = false →
  let r := replace net tx0 s in
  let s' := snd r in
  fst r = Ok tt ∧
  tx (txn s') = tx0 ∧
  (∀ k, tx0 !! k = None → tx (txn s') !! k = None) ∧
  (∀ m tx1, txn s = new_Transaction tx1 m →
            tx (txn s) !! "from" = Some (VStr (m_address m)) ∧
            (tx0 !! "from" = None → tx (txn s') !! "from" = None)) ∧
  executed (txn s') = false ∧
  mgr s' = mgr s ∧
  network_calls (trace s') = network_calls (trace s).
Proof.
  intros He. unfold replace, bind, console_log, modify, get_state. cbn.
  rewrite He. cbn. trace_simpl.
  split; [done|]. split; [done|]. split; [done|]. split.
  - intros m tx1 ->. cbn. split; [|done].
    unfold put. by rewrite lookup_insert_eq.
  - split; [done|]. split; [done|]. lia.
Qed.

(** ** Gas price escalation *)

(** One step, by cases on the current price. *)
Lemma _increaseGasPrice_cases s :
  let M := parseUnits_gwei (MAX_GAS_PRICE (m_config (mgr s))) in
  let B := parseUnits_gwei (MIN_GWEI_BUMP (m_config (mgr s))) in
  let K := GAS_BUMP_PERCENTAGE (m_config (mgr s)) in
  match BigNumber_from (get (tx (txn s)) "gasPrice") with
  | None => _increaseGasPrice s = (Throw BigNumberError, s)
  | Some P =>
      if M <=? P then
        _increaseGasPrice s =
        (Ok false, record (ELog "Already at max gas price, not bumping") s)
      else
        _increaseGasPrice s =
        (Ok true,
         record (ELog "Increasing gas price")
           (with_txn
              (λ t, set_tx
                      (put "gasPrice"
                           (VHex (Z.min (Z.max (P * (100 + K) ÷ 100) (P + B)) M))
                           (tx t)) t) s))
  end.
Proof.
  cbn zeta. unfold _increaseGasPrice, bind, get_state. cbn.
  destruct (BigNumber_from _) as [P|]; [|done].
  destruct (_ <=? P); done.
Qed.

(** C4: below the maximum, one escalation step sets the price to
    min(max(P * (100 + K) / 100, P + B), M), with B and M the configured
    bump and maximum in wei and the division that of big numbers; for
    whole-gwei prices 100 and 990 under the spec's two configurations
    this is 110 and 1000 gwei. *)
Theorem increaseGasPrice_formula s P :
  let M := MAX_GAS_PRICE (m_config (mgr s)) in
  let B := MIN_GWEI_BUMP (m_config (mgr s)) in
  let K := GAS_BUMP_PERCENTAGE (m_config (mgr s)) in
  BigNumber_from (get (tx (txn s)) "gasPrice") = Some P →
  P < parseUnits_gwei M →
  let r := _increaseGasPrice s in
  let P' := get (tx (txn (snd r))) "gasPrice" in
  fst r = Ok true ∧
  P' = VHex (Z.min (Z.max (P * (100 + K) ÷ 100) (P + parseUnits_gwei B))
                   (parseUnits_gwei M)) ∧
  (0 <= P → 0 <= 100 + K → P * (100 + K) ÷ 100 = P * (100 + K) / 100) ∧
  (P = gwei 100 → K = 10 → B = 5 → M = 1000 → P' = VHex (gwei 110)) ∧
  (P = gwei 990 → K = 10 → B = 50 → M = 1000 → P' = VHex (gwei 1000)).
Proof.
  cbn zeta. intros HP Hlt.
  pose proof (_increaseGasPrice_cases s) as Hc. cbn zeta in Hc.
  rewrite HP in Hc.
  destruct (Z.leb_spec (parseUnits_gwei (MAX_GAS_PRICE (m_config (mgr s)))) P);
    [lia|].
  rewrite Hc. cbn. rewrite get_put_eq.
  split; [done|]. split; [done|]. split.
  - intros ? ?. apply Z.quot_div_nonneg; [by apply Z.mul_nonneg_nonneg|lia].
  - split; intros -> -> -> ->; reflexivity.
Qed.

Lemma escalate_mgr k : ∀ s, mgr (escalate k s) = mgr s.
Proof.
  induction k as [|k IH]; intros s; cbn; [done|].
  rewrite IH. by destruct (_increaseGasPrice_frame s).
Qed.

(** C5: escalation never produces a price above the maximum, and at or
    above the maximum every step, however often repeated, reports the
    no-bump outcome and leaves transaction and manager as they are. *)
Theorem escalation_capped k s P :
  let M := parseUnits_gwei (MAX_GAS_PRICE (m_config (mgr s))) in
  BigNumber_from (get (tx (txn s)) "gasPrice") = Some P →
  (fst (_increaseGasPrice s) = Ok true →
   ∃ p, get (tx (txn (snd (_increaseGasPrice s)))) "gasPrice" = VHex p ∧ p <= M) ∧
  (∃ P', BigNumber_from (get (tx (txn (escalate k s))) "gasPrice") = Some P' ∧
         P' <= Z.max P M) ∧
  (M <= P →
   fst (_increaseGasPrice (escalate k s)) = Ok false ∧
   txn (escalate k s) = txn s ∧ mgr (escalate k s) = mgr s).
Proof.
  cbn zeta. intros HP. split; [|split].
  - pose proof (_increaseGasPrice_cases s) as Hc. cbn zeta in Hc.
    rewrite HP in Hc. destruct (_ <=? P); rewrite Hc; cbn; [done|].
    intros _. rewrite get_put_eq. eexists. split; [done|]. lia.
  - revert s P HP. induction k as [|k IH]; intros s P HP; cbn.
    + exists P. split; [done|]. lia.
    + pose proof (_increaseGasPrice_cases s) as Hc. cbn zeta in Hc.
      rewrite HP in Hc.
      destruct (Z.leb_spec (parseUnits_gwei (MAX_GAS_PRICE (m_config (mgr s)))) P);
        rewrite Hc; cbn.
      * destruct (IH (record (ELog "Already at max gas price, not bumping") s) P HP)
          as (P' & H1 & H2). by exists P'.
      * match goal with
        | |- context [escalate k ?s1] =>
            destruct (IH s1 _ ltac:(cbn; rewrite get_put_eq; reflexivity))
              as (P' & H1 & H2)
        end.
        exists P'. split; [exact H1|]. cbn in H2. lia.
  - intros Hle.
    assert (Hk : ∀ s', txn s' = txn s → mgr s' = mgr s →
              txn (escalate k s') = txn s ∧ mgr (escalate k s') = mgr s).
    { induction k as [|k IH]; intros s' Ht Hm; cbn; [done|].
      pose proof (_increaseGasPrice_cases s') as Hc. cbn zeta in Hc.
      rewrite Ht, Hm, HP in Hc.
      destruct (Z.leb_spec (parseUnits_gwei (MAX_GAS_PRICE (m_config (mgr s)))) P);
        [|lia].
      rewrite Hc. cbn. by apply IH. }
    destruct (Hk s eq_refl eq_refl) as [Ht Hm]. split; [|done].
    pose proof (_increaseGasPrice_cases (escalate k s)) as Hc. cbn zeta in Hc.
    rewrite Ht, Hm, HP in Hc.
    destruct (Z.leb_spec (parseUnits_gwei (MAX_GAS_PRICE (m_config (mgr s)))) P);
      [|lia].
    by rewrite Hc.
Qed.

(** ** Gas limit preparation *)

Section GasLimit.

Variable net : Network.

(** Discovering the block gas limit leaves the transaction and the
    multiplier alone. *)
Lemma prepare_blockGasLimit_frame s :
  let s1 := snd (prepare_blockGasLimit net s) in
  txn s1 = txn s ∧
  GAS_LIMIT_MULTIPLIER (m_config (mgr s1)) = GAS_LIMIT_MULTIPLIER (m_config (mgr s)).
Proof. run; done. Qed.

(** Lines 105-111 when the request has no gas limit and the estimate
    arrives. *)
Lemma prepare_gasLimit_estimated s g :
  falsy (get (tx (txn s)) "gasLimit") = true →
  net_estimateGas net (length (trace s)) (tx (txn s)) = Reply g →
  prepare_gasLimit net s =
  (Ok tt,
   with_txn
     (λ t, set_tx
             (put "gasLimit"
                  (Math_min (floor_mul g (GAS_LIMIT_MULTIPLIER (m_config (mgr s))))
                            (BLOCK_GAS_LIMIT (m_config (mgr s))))
                  (tx t)) t)
     (record (EEstimateGas (tx (txn s))) s)).
Proof.
  intros Hf Hg. unfold prepare_gasLimit, bind, get_state, await, set_field, modify.
  cbn. rewrite Hf. cbn. rewrite Hg. cbn. by rewrite Hf.
Qed.

(** The rest of [_prepare] does not write the gas limit. *)
Lemma prepare_tail_gasLimit s :
  get (tx (txn (snd ((prepare_gasPrice net ;;; prepare_nonce net ;;;
                      prepare_chainId net) s)))) "gasLimit" =
  get (tx (txn s)) "gasLimit".
Proof. run; repeat (rewrite ?get_put_ne by done); done. Qed.

(** C8: when the request has no gas limit and the estimate arrives,
    [_prepare] sets the limit to
    min(floor(estimate * multiplier), blockGasLimit), the product being
    that of doubles; with multiplier 1.2 and cap 60000 an estimate of 50000
    gives 60000 and one of 40000 gives 48000. *)
Theorem prepare_gas_limit s g :
  let r1 := prepare_blockGasLimit net s in
  let s1 := snd r1 in
  let mult := GAS_LIMIT_MULTIPLIER (m_config (mgr s)) in
  let cap := BLOCK_GAS_LIMIT (m_config (mgr s1)) in
  let limit := get (tx (txn (snd (_prepare net s)))) "gasLimit" in
  fst r1 = Ok tt →
  falsy (get (tx (txn s)) "gasLimit") = true →
  net_estimateGas net (length (trace s1)) (tx (txn s)) = Reply g →
  limit = Math_min (floor_mul g mult) cap ∧
  (mult = one_point_two → cap = VNum 60000 → g = 50000 → limit = VNum 60000) ∧
  (mult = one_point_two → cap = VNum 60000 → g = 40000 → limit = VNum 48000).
Proof.
  cbn zeta. intros H1 Hf Hg.
  pose proof (prepare_blockGasLimit_frame s) as (Ht & Hm). 
  assert (Hlimit :
    get (tx (txn (snd (_prepare net s)))) "gasLimit" =
    Math_min (floor_mul g (GAS_LIMIT_MULTIPLIER (m_config (mgr s))))
             (BLOCK_GAS_LIMIT (m_config (mgr (snd (prepare_blockGasLimit net s)))))).
  { unfold _prepare. unfold bind at 1.
    destruct (prepare_blockGasLimit net s) as [o1 s1]. cbn [fst snd] in *.
    subst o1. unfold bind at 1.
    rewrite (prepare_gasLimit_estimated s1 g) by (rewrite Ht; done).
    rewrite prepare_tail_gasLimit. cbn. rewrite get_put_eq. by rewrite Hm. }
  split; [exact Hlimit|].
  split; intros Hmult Hcap ->; rewrite Hlimit, Hmult, Hcap; by vm_compute.
Qed.

End GasLimit.

(** ** Submission *)

Section Submit.

Variable net : Network.

(** The order of [_send]: the request, the hash, the wait for the receipt,
    and only then the event. *)
Lemma _send_order s :
  let r := _send net s in
  let s' := snd r in
  (fst r = Ok tt →
   ∃ h, trace s' =
          trace s ++ [ESendTransaction (tx (txn s)); EGetHash; EWaitReceipt;
                      EEmit "transactionHash" h;
                      ELog "Broadcasted transaction"] ∧
        hashes (txn s') = hashes (txn s) ++ [h]) ∧
  (fst r ≠ Ok tt → emitted (trace s') = emitted (trace s)) ∧
  (∀ h, net_sendTransaction net (length (trace s)) (tx (txn s)) = Reply tt →
        net_getHash net (S (length (trace s))) = Reply h →
        net_waitReceipt net (S (S (length (trace s)))) = NoReply →
        fst r = Pending ∧ hashes (txn s') = hashes (txn s) ++ [h] ∧
        emitted (trace s') = emitted (trace s)).
Proof.
  cbn zeta. split; [|split].
  - run; try done. intros _. eexists. rewrite <- !app_assoc. cbn. done.
  - run; trace_simpl; rewrite ?app_nil_r; done.
  - intros h Hs Hh Hw. unfold _send, bind, get_state, await, modify. cbn.
    rewrite Hs. cbn. rewrite length_app. cbn.
    replace (length (trace s) + 1)%nat with (S (length (trace s))) by lia.
    rewrite Hh. cbn. rewrite !length_app. cbn.
    replace (length (trace s) + 1 + 1)%nat with (S (S (length (trace s)))) by lia.
    rewrite Hw. cbn. trace_simpl. by rewrite !app_nil_r.
Qed.

End Submit.

(** C7, what the code does instead: [_send] emits [transactionHash] only
    once the receipt has arrived, after the wait; a broadcast whose hash is
    recorded but whose receipt is late or fails has emitted nothing.  At
    the scenario of a receipt that never arrives, the hash is in [hashes],
    no event was emitted and the promise of [send] is unsettled. *)
Theorem send_emits_after_receipt :
  (∀ net s,
     (fst (_send net s) = Ok tt →
      ∃ h, trace (snd (_send net s)) =
             trace s ++ [ESendTransaction (tx (txn s)); EGetHash; EWaitReceipt;
                         EEmit "transactionHash" h;
                         ELog "Broadcasted transaction"]) ∧
     (fst (_send net s) ≠ Ok tt →
      emitted (trace (snd (_send net s))) = emitted (trace s))) ∧
  hashes (txn (snd (send net_stuck s0))) = ["0xA1"%string] ∧
  emitted (trace (snd (send net_stuck s0))) = [] ∧
  t_promise (txn (snd (send net_stuck s0))) = Unsettled.
Proof.
  split.
  - intros net s. destruct (_send_order net s) as (H1 & H2 & _).
    split; [|exact H2].
    intros Hok. destruct (H1 Hok) as (h & Ht & _). by exists h.
  - vm_compute. done.
Qed.

(** ** The scenarios, run *)

(** A stuck transaction is cancelled: the resubmission carries the nonce
    of the original, a higher gas price, the sender as destination and no
    value. *)
Example scenario_cancel :
  let s := snd (send net_stuck s0) in
  let s' := snd (cancel net0 s) in
  get (tx (txn s)) "nonce" = VNum 7 ∧
  get (tx (txn s)) "gasPrice" = VHex (gwei 100) ∧
  last (sent_requests (trace s')) = Some (tx (txn s')) ∧
  get (tx (txn s')) "nonce" = VNum 7 ∧
  get (tx (txn s')) "gasPrice" = VHex (gwei 110) ∧
  get (tx (txn s')) "to" = VStr "0xme" ∧
  get (tx (txn s')) "value" = VNum 0.
Proof. vm_compute. done. Qed.

(** While the receipt is awaited the hash is recorded, no event has been
    emitted and the mutex is held. *)
Example scenario_stuck :
  let s := snd (send net_stuck s0) in
  hashes (txn s) = ["0xA1"%string] ∧ emitted (trace s) = [] ∧
  t_promise (txn s) = Unsettled ∧ m_locked (mgr s) = true.
Proof. vm_compute. done. Qed.

(** The two escalations of the spec, in gwei. *)
Example scenario_bump_110 :
  get (tx (txn (snd (_increaseGasPrice
                       (s_price (cfg_bump 10 5 1000) (VHex (gwei 100)))))))
      "gasPrice" = VHex (gwei 110).
Proof. vm_compute. done. Qed.

Example scenario_bump_capped :
  get (tx (txn (snd (_increaseGasPrice
                       (s_price (cfg_bump 10 50 1000) (VHex (gwei 990)))))))
      "gasPrice" = VHex (gwei 1000).
Proof. vm_compute. done. Qed.

(** The two gas limits of the spec. *)
Example scenario_gas_limit_60000 :
  get (tx (txn (snd (_prepare (net_estimate 50000) s0)))) "gasLimit" = VNum 60000.
Proof. vm_compute. done. Qed.

Example scenario_gas_limit_48000 :
  get (tx (txn (snd (_prepare (net_estimate 40000) s0)))) "gasLimit" = VNum 48000.
Proof. vm_compute. done. Qed.

(** The product is that of doubles: 100 * 1.15 is 114.99999999999999, whose
    floor is 114, where the product of the reals has floor 115. *)
Example floor_mul_binary64 :
  floor_mul 100 (0x1.2666666666666p+0)%float = VNum 114.
Proof. vm_compute. done. Qed.

(** ** The theorems at the scenarios *)

(** Two cancels of a stuck transaction keep its nonce, 7. *)
Lemma replace_cancel_preserve_nonce_witness :
  executed (txn (snd (send net_stuck s0))) = true ∧
  get (tx (txn (snd (do_call net0 CallCancel
                       (run_calls net0 [CallCancel] (snd (send net_stuck s0)))))))
      "nonce" = VNum 7.
Proof.
  split; [vm_compute; reflexivity|].
  destruct (replace_cancel_preserve_nonce net0 [CallCancel] CallCancel
              (snd (send net_stuck s0)) ltac:(vm_compute; reflexivity))
    as (_ & H & _).
  rewrite H. vm_compute. reflexivity.
Defined.

(** 100 gwei under a 10 percent bump, a 5 gwei minimum and a 1000 gwei
    maximum becomes 110 gwei. *)
Lemma increaseGasPrice_formula_witness :
  BigNumber_from
    (get (tx (txn (s_price (cfg_bump 10 5 1000) (VHex (gwei 100))))) "gasPrice")
  = Some (gwei 100) ∧
  gwei 100 < parseUnits_gwei 1000 ∧
  get (tx (txn (snd (_increaseGasPrice
                       (s_price (cfg_bump 10 5 1000) (VHex (gwei 100)))))))
      "gasPrice" = VHex (gwei 110).
Proof.
  split; [vm_compute; reflexivity|]. split; [vm_compute; reflexivity|].
  destruct (increaseGasPrice_formula
              (s_price (cfg_bump 10 5 1000) (VHex (gwei 100))) (gwei 100)
              ltac:(vm_compute; reflexivity) ltac:(vm_compute; reflexivity))
    as (_ & _ & _ & H & _).
  apply H; reflexivity.
Defined.

(** At the maximum, a fourth step after three still reports no bump. *)
Lemma escalation_capped_witness :
  BigNumber_from
    (get (tx (txn (s_price (cfg_bump 10 5 1000) (VHex (gwei 1000))))) "gasPrice")
  = Some (gwei 1000) ∧
  parseUnits_gwei 1000 <= gwei 1000 ∧
  fst (_increaseGasPrice
         (escalate 3 (s_price (cfg_bump 10 5 1000) (VHex (gwei 1000))))) = Ok false ∧
  txn (escalate 3 (s_price (cfg_bump 10 5 1000) (VHex (gwei 1000)))) =
  txn (s_price (cfg_bump 10 5 1000) (VHex (gwei 1000))).
Proof.
  split; [vm_compute; reflexivity|].
  split; [vm_compute; discriminate|].
  destruct (escalation_capped 3
              (s_price (cfg_bump 10 5 1000) (VHex (gwei 1000))) (gwei 1000)
              ltac:(vm_compute; reflexivity))
    as (_ & _ & H).
  destruct H as (H1 & H2 & _); [vm_compute; discriminate|].
  split; [exact H1|exact H2].
Defined.

(** A second [send] after the scenario's first. *)
Lemma send_twice_throws_witness :
  executed (txn (snd (send net0 s0))) = true ∧
  send net0 (snd (send net0 s0)) =
  (Throw AlreadyExecutedError, snd (send net0 s0)).
Proof.
  split; [vm_compute; reflexivity|].
  apply (send_twice_throws net0 net0 [] s0 (snd (send net0 s0))).
  vm_compute; reflexivity.
Defined.

(** An estimate of 40000 under multiplier 1.2 and cap 60000. *)
Lemma prepare_gas_limit_witness :
  fst (prepare_blockGasLimit net0 s0) = Ok tt ∧
  falsy (get (tx (txn s0)) "gasLimit") = true ∧
  net_estimateGas net0 (length (trace (snd (prepare_blockGasLimit net0 s0))))
    (tx (txn s0)) = Reply 40000 ∧
  get (tx (txn (snd (_prepare net0 s0)))) "gasLimit" = VNum 48000.
Proof.
  split; [vm_compute; reflexivity|]. split; [vm_compute; reflexivity|].
  split; [reflexivity|].
  destruct (prepare_gas_limit net0 s0 40000
              ltac:(vm_compute; reflexivity) ltac:(vm_compute; reflexivity)
              ltac:(reflexivity))
    as (_ & _ & H).
  apply H; reflexivity.
Defined.

(** A replacement that names only [to] drops the constructor's [from]. *)
Lemma replace_before_send_witness :
  executed (txn s0) = false ∧
  tx (txn s0) !! "from" = Some (VStr "0xme") ∧
  tx (txn (snd (replace net0 (put "to" (VStr "0xother") ∅) s0))) !! "from" = None.
Proof.
  split; [reflexivity|].
  destruct (replace_before_send net0 (put "to" (VStr "0xother") ∅) s0 eq_refl)
    as (_ & _ & _ & H & _).
  destruct (H m0 transfer eq_refl) as (H1 & H2).
  split; [exact H1|]. apply H2. vm_compute. reflexivity.
Defined.

(** * Further properties of the class *)

Lemma count_events_app p tr1 tr2 :
  count_events p (tr1 ++ tr2) = (count_events p tr1 + count_events p tr2)%nat.
Proof.
  induction tr1 as [|e tr1 IH]; [done|].
  cbn. rewrite IH. lia.
Qed.

Lemma lookup_put_ne k k' v (o : txobj) : k ≠ k' → put k v o !! k' = o !! k'.
Proof. intros Hne. unfold put. by rewrite lookup_insert_ne. Qed.

Ltac count_simpl :=
  rewrite ?count_events_app, ?sent_requests_app, ?nonce_queries_app,
    ?emitted_app, ?network_calls_app; cbn;
  rewrite ?app_nil_r, ?Nat.add_0_r.

(** ** Preparation *)

Section PrepareMore.

Variable net : Network.

(** [_prepare] by cases on its first step. *)
Lemma _prepare_unfold s :
  _prepare net s =
  if falsy (BLOCK_GAS_LIMIT (m_config (mgr s))) then
    match net_getBlock net (length (trace s)) with
    | Reply g =>
        (prepare_gasLimit net ;;; prepare_gasPrice net ;;;
         prepare_nonce net ;;; prepare_chainId net)
          (with_mgr (set_BLOCK_GAS_LIMIT (floor_mul g ninety_five_percent))
                    (record EGetBlock s))
    | Reject code => (Throw (NetworkError code), record EGetBlock s)
    | NoReply => (Pending, record EGetBlock s)
    end
  else
    (prepare_gasLimit net ;;; prepare_gasPrice net ;;;
     prepare_nonce net ;;; prepare_chainId net) s.
Proof.
  unfold _prepare, bind at 1, prepare_blockGasLimit, bind at 1, get_state.
  cbn. destruct (falsy _); [|done].
  unfold bind at 1, await.
  destruct (net_getBlock net (length (trace s))); done.
Qed.

(** After its first step [_prepare] neither reads the latest block nor
    writes the config. *)
Lemma prepare_rest_config s :
  let s' := snd ((prepare_gasLimit net ;;; prepare_gasPrice net ;;;
                  prepare_nonce net ;;; prepare_chainId net) s) in
  m_config (mgr s') = m_config (mgr s) ∧
  count_events is_getBlock (trace s') = count_events is_getBlock (trace s).
Proof. run; count_simpl; done. Qed.

(** X1: The block gas limit is discovered at most once: a cached limit is
    reused without a question and the config is left as it is; an unset
    one is asked for, and set to 95 percent of the answer, rounded down.
    The other options are never written. *)
Theorem prepare_caches_block_gas_limit s :
  let r := _prepare net s in
  let s' := snd r in
  let c := m_config (mgr s) in
  let c' := m_config (mgr s') in
  (GAS_LIMIT_MULTIPLIER c' = GAS_LIMIT_MULTIPLIER c ∧
   ESTIMATE_GAS c' = ESTIMATE_GAS c ∧ MAX_GAS_PRICE c' = MAX_GAS_PRICE c ∧
   MIN_GWEI_BUMP c' = MIN_GWEI_BUMP c ∧
   GAS_BUMP_PERCENTAGE c' = GAS_BUMP_PERCENTAGE c) ∧
  (falsy (BLOCK_GAS_LIMIT c) = false →
   c' = c ∧
   count_events is_getBlock (trace s') = count_events is_getBlock (trace s)) ∧
  (falsy (BLOCK_GAS_LIMIT c) = true →
   match net_getBlock net (length (trace s)) with
   | Reply g =>
       BLOCK_GAS_LIMIT c' = floor_mul g ninety_five_percent ∧
       count_events is_getBlock (trace s') =
       (count_events is_getBlock (trace s) + 1)%nat
   | Reject code =>
       r = (Throw (NetworkError code), record EGetBlock s)
   | NoReply => r = (Pending, record EGetBlock s)
   end).
Proof.
  cbn zeta. rewrite _prepare_unfold.
  destruct (falsy (BLOCK_GAS_LIMIT (m_config (mgr s)))) eqn:Hf.
  - destruct (net_getBlock net (length (trace s))) as [g|code|]; cbn;
      [|by repeat split..].
    pose proof (prepare_rest_config
      (with_mgr (set_BLOCK_GAS_LIMIT (floor_mul g ninety_five_percent))
                (record EGetBlock s))) as (Hc & Hn).
    rewrite Hc, Hn. cbn. count_simpl. by repeat split.
  - pose proof (prepare_rest_config s) as (Hc & Hn). rewrite Hc, Hn.
    by repeat split.
Qed.

Ltac run_get :=
  unfold_methods; cbn;
  repeat (progress (repeat (rewrite get_put_ne by done)) || (split_match; cbn)).

(** X2: A gas limit that the caller gave is kept as it is.  Without
    [ESTIMATE_GAS] no estimate is asked for; with it the estimate is asked
    for all the same, once, and its value is not used. *)
Theorem prepare_keeps_explicit_gas_limit s :
  falsy (get (tx (txn s)) "gasLimit") = false →
  let r := _prepare net s in
  let s' := snd r in
  get (tx (txn s')) "gasLimit" = get (tx (txn s)) "gasLimit" ∧
  (ESTIMATE_GAS (m_config (mgr s)) = false →
   count_events is_estimateGas (trace s') =
   count_events is_estimateGas (trace s)) ∧
  (ESTIMATE_GAS (m_config (mgr s)) = true → fst r = Ok tt →
   count_events is_estimateGas (trace s') =
   (count_events is_estimateGas (trace s) + 1)%nat).
Proof.
  intros Hf. cbn zeta. revert Hf.
  run_get; intros Hf; count_simpl;
    repeat (rewrite ?get_put_ne by done);
    try congruence; (split; [done|]); split; intros;
    destruct (falsy (get (tx (txn s)) "gasLimit"));
    destruct (ESTIMATE_GAS (m_config (mgr s))); cbn in *;
    (done || lia || congruence).
Qed.

(** X3: A gas price that the caller gave is kept as it is, above the maximum
    too, and the oracle is not asked; without one, a [_prepare] that
    completes has asked the oracle once and set the lesser of its answer
    and the maximum. *)
Theorem prepare_gas_price s :
  let r := _prepare net s in
  let s' := snd r in
  let M := parseUnits_gwei (MAX_GAS_PRICE (m_config (mgr s))) in
  (falsy (get (tx (txn s)) "gasPrice") = false →
   get (tx (txn s')) "gasPrice" = get (tx (txn s)) "gasPrice" ∧
   count_events is_gasPriceOracle (trace s') =
   count_events is_gasPriceOracle (trace s)) ∧
  (falsy (get (tx (txn s)) "gasPrice") = true → fst r = Ok tt →
   (∃ t f, net_gasPrice net t = Reply f ∧
           get (tx (txn s')) "gasPrice" = VHex (Z.min f M)) ∧
   count_events is_gasPriceOracle (trace s') =
   (count_events is_gasPriceOracle (trace s) + 1)%nat).
Proof.
  cbn zeta.
  run_get; count_simpl;
    repeat (rewrite ?get_put_eq; rewrite ?get_put_ne by done);
    (split; [intros; try congruence; (split; [done|lia])|]);
    intros ? ?; try congruence;
    (split; [eexists _, _; split; [eassumption|done]|lia]).
Qed.

Lemma prepared_field_false k :
  prepared_field k = false →
  k ≠ "gasLimit" ∧ k ≠ "gasPrice" ∧ k ≠ "nonce" ∧ k ≠ "chainId".
Proof. unfold prepared_field. repeat case_decide; done. Qed.

(** Fields that [_prepare] does not assign are as they were. *)
Lemma _prepare_other_fields s k :
  prepared_field k = false →
  tx (txn (snd (_prepare net s))) !! k = tx (txn s) !! k.
Proof.
  intros (H1 & H2 & H3 & H4)%prepared_field_false.
  run; repeat (rewrite ?lookup_put_ne by done); done.
Qed.

(** X4: [_prepare] writes four fields of the request and no other: what the
    caller gave as destination, value, data or sender is still there, and
    nothing is added.  A [_prepare] that completes has put the manager's
    nonce and the network's chain id on the request, whatever the caller
    had put there. *)
Theorem prepare_writes_four_fields s :
  let r := _prepare net s in
  let s' := snd r in
  (∀ k, prepared_field k = false → tx (txn s') !! k = tx (txn s) !! k) ∧
  (fst r = Ok tt →
   get (tx (txn s')) "nonce" = m_nonce (mgr s') ∧
   ∃ t c, net_getChainId net t = Reply c ∧
          get (tx (txn s')) "chainId" = VNum c).
Proof.
  cbn zeta. split.
  - intros k Hk. by apply _prepare_other_fields.
  - run; try done; intros _;
      repeat (rewrite ?get_put_eq; rewrite ?get_put_ne by done);
      (split; [done|]); eexists _, _; (split; [eassumption|done]).
Qed.

End PrepareMore.

(** ** Execution and [send] *)

Section ExecuteMore.

Variable net : Network.

(** [_execute] writes the request, the hashes, the receipt and the submit
    time of the transaction, and none of its other fields. *)
Lemma _execute_txn_frame s :
  let s' := snd (_execute net s) in
  t_promise (txn s') = t_promise (txn s) ∧
  executed (txn s') = executed (txn s) ∧
  t_address (txn s') = t_address (txn s).
Proof. run; done. Qed.

(** [send] on a transaction that is not executed yet, in terms of
    [_execute]. *)
Lemma send_unfold s :
  executed (txn s) = false →
  send net s =
  match _execute net (with_txn (set_executed true) s) with
  | (Ok r, s') => (Ok tt, with_txn (set_promise (Resolved r)) s')
  | (Throw e, s') => (Ok tt, with_txn (set_promise (Rejected e)) s')
  | (Pending, s') => (Ok tt, s')
  end.
Proof.
  intros He. unfold send, bind at 1, get_state. cbn. rewrite He.
  unfold bind, modify. cbn. done.
Qed.

(** A returning [_execute], from a manager whose nonce is unset or a
    number: the request went out under the stored nonce, or under the
    count fetched for want of one, and the manager holds the next. *)
Lemma _execute_ok s r :
  nonce_wf (m_nonce (mgr s)) →
  fst (_execute net s) = Ok r →
  let s' := snd (_execute net s) in
  ∃ n, get (tx (txn s')) "nonce" = VNum n ∧
       m_nonce (mgr s') = VNum (n + 1) ∧
       ((falsy (m_nonce (mgr s)) = false ∧ m_nonce (mgr s) = VNum n ∧
         nonce_queries (trace s') = nonce_queries (trace s)) ∨
        (falsy (m_nonce (mgr s)) = true ∧
         (∃ t, net_getTransactionCount net t (t_address (txn s)) = Reply n) ∧
         nonce_queries (trace s') = (nonce_queries (trace s) + 1)%nat)).
Proof.
  intros Hwf. cbn zeta. rewrite _execute_unfold.
  destruct (m_locked (mgr s)); [done|].
  pose proof (_prepare_nonce net (with_mgr (set_locked true) s)) as Hp.
  cbn zeta in Hp.
  destruct (_prepare net _) as [o1 s2]. cbn [fst snd] in Hp.
  destruct Hp as (_ & _ & Haddr & _ & Hn). cbn in Hn, Haddr.
  destruct o1 as [[]|e|]; cbn; [|done|done].
  pose proof (_send_frame net s2) as Hs. cbn zeta in Hs.
  destruct (_send net s2) as [o2 s3]. cbn [fst snd] in Hs.
  destruct Hs as (Hmgr & Htx & _ & _ & _ & Hq).
  destruct o2 as [[]|e|]; cbn; [|done|done].
  intros _. rewrite Htx, Hq.
  destruct (falsy (m_nonce (mgr s))) eqn:Hf.
  - destruct Hn as [(_ & Hne & _)|(t & n & Hr & Hm & Hq' & Hget)]; [done|].
    exists n. rewrite Hget by done. split; [done|]. split; [done|].
    right. split; [done|]. split; [by exists t|done].
  - destruct Hn as (Hm & Hq' & Hget).
    destruct Hwf as [Hu|[n Hv]]; [by rewrite Hu in Hf|].
    exists n. rewrite Hget, Hv by done. split; [done|]. split; [done|].
    left. done.
Qed.

(** X5: A throwing [_execute] whose preparation had completed leaves on the
    manager the very nonce that the failed request carries; a transaction
    prepared next, if that nonce is not [0], is given it again. *)
Theorem failed_execute_leaves_nonce s e s2 :
  fst (_execute net s) = Throw e →
  fst (_prepare net (with_mgr (set_locked true) s)) = Ok tt →
  mgr s2 = mgr (snd (_execute net s)) →
  let s' := snd (_execute net s) in
  m_nonce (mgr s') = get (tx (txn s')) "nonce" ∧
  (falsy (m_nonce (mgr s')) = false →
   fst (_prepare net s2) = Ok tt →
   get (tx (txn (snd (_prepare net s2)))) "nonce" = get (tx (txn s')) "nonce").
Proof.
  cbn zeta. rewrite _execute_unfold.
  destruct (m_locked (mgr s)); [done|].
  pose proof (_prepare_nonce net (with_mgr (set_locked true) s)) as Hp.
  cbn zeta in Hp.
  destruct (_prepare net _) as [o1 s1]. cbn [fst snd] in Hp |- *.
  intros Hthrow ->. cbn in Hthrow |- *.
  assert (Hn : get (tx (txn s1)) "nonce" = m_nonce (mgr s1)).
  { destruct Hp as (_ & _ & _ & _ & Hn). cbn in Hn.
    destruct (falsy (m_nonce (mgr s))).
    - destruct Hn as [(_ & Hne & _)|(t & n & _ & Hm & _ & Hget)]; [done|].
      rewrite Hget, Hm; done.
    - destruct Hn as (Hm & _ & Hget). rewrite Hget, Hm; done. }
  pose proof (_send_frame net s1) as Hs. cbn zeta in Hs.
  destruct (_send net s1) as [o2 s3]. cbn [fst snd] in Hs.
  destruct Hs as (Hmgr & Htx & _).
  destruct o2 as [[]|e'|]; cbn in Hthrow |- *; [done| |done].
  intros Hm2. cbn in Hm2. rewrite Hmgr in Hm2. rewrite Hmgr, Htx.
  split; [done|].
  intros Hf Hok.
  pose proof (_prepare_nonce net s2) as Hp2. cbn zeta in Hp2.
  destruct Hp2 as (_ & _ & _ & _ & Hn2).
  rewrite Hm2 in Hn2. cbn in Hn2. rewrite Hf in Hn2.
  destruct Hn2 as (_ & _ & Hget). rewrite Hget by done. done.
Qed.

End ExecuteMore.

Section SendMore.

Variable net : Network.

(** X6: [send] on a fresh transaction never throws: it marks the transaction
    executed and returns the emitter.  What becomes of the submission is on
    the promise: resolved with the receipt that the network delivered,
    rejected with a rejection of the network (and nothing emitted), in both
    cases with the mutex free again; or still unsettled, the mutex held. *)
Theorem send_settles s :
  executed (txn s) = false →
  t_promise (txn s) = Unsettled →
  let r := send net s in
  let s' := snd r in
  fst r = Ok tt ∧
  executed (txn s') = true ∧
  match t_promise (txn s') with
  | Resolved rc =>
      ∃ t rcpt, net_waitReceipt net t = Reply rcpt ∧ rc = Some rcpt ∧
                receipt (txn s') = Some rcpt ∧ m_locked (mgr s') = false
  | Rejected e =>
      (∃ code, e = NetworkError code) ∧ m_locked (mgr s') = false ∧
      emitted (trace s') = emitted (trace s)
  | Unsettled =>
      m_locked (mgr s') = true ∧ emitted (trace s') = emitted (trace s)
  end.
Proof.
  intros He Hp. cbn zeta. rewrite (send_unfold net s He).
  run; count_simpl; rewrite ?Hp; (split; [done|]); (split; [done|]);
    first [ done
          | split; [by eexists|done]
          | eexists _, _; split; [eassumption|done] ].
Qed.

(** One resolved [send] of a fresh transaction, seen from the manager. *)
Lemma send_resolved s r :
  executed (txn s) = false →
  t_promise (txn s) = Unsettled →
  nonce_wf (m_nonce (mgr s)) →
  t_promise (txn (snd (send net s))) = Resolved r →
  let s' := snd (send net s) in
  ∃ n, get (tx (txn s')) "nonce" = VNum n ∧
       m_nonce (mgr s') = VNum (n + 1) ∧
       ((falsy (m_nonce (mgr s)) = false ∧ m_nonce (mgr s) = VNum n ∧
         nonce_queries (trace s') = nonce_queries (trace s)) ∨
        (falsy (m_nonce (mgr s)) = true ∧
         (∃ t, net_getTransactionCount net t (t_address (txn s)) = Reply n) ∧
         nonce_queries (trace s') = (nonce_queries (trace s) + 1)%nat)).
Proof.
  intros He Hp Hwf. cbn zeta. rewrite (send_unfold net s He).
  pose proof (_execute_txn_frame net (with_txn (set_executed true) s)) as (Hpr & _).
  pose proof (_execute_ok net (with_txn (set_executed true) s)) as Hok.
  cbn zeta in Hpr, Hok.
  destruct (_execute net _) as [[rc|e|] s1]; cbn [fst snd] in *.
  - intros _. destruct (Hok rc Hwf eq_refl) as (n & H1 & H2 & H3).
    exists n. cbn in *. done.
  - cbn. done.
  - cbn in Hpr. rewrite Hpr, Hp. done.
Qed.

(** Sends in a row from a manager that holds a positive nonce. *)
Lemma send_each_warm reqs : ∀ m tr n,
  0 < n → m_nonce m = VNum n →
  let res := send_each net reqs m tr in
  Forall (λ t, ∃ r, t_promise t = Resolved r) res.1.1 →
  (∀ i t, res.1.1 !! i = Some t → get (tx t) "nonce" = VNum (n + Z.of_nat i)) ∧
  m_nonce res.1.2 = VNum (n + Z.of_nat (length reqs)) ∧
  nonce_queries res.2 = nonce_queries tr.
Proof.
  induction reqs as [|req reqs IH]; intros m tr n Hn Hm; cbn zeta.
  - cbn. intros _. split; [intros i t Hi; by destruct i|].
    split; [|done]. rewrite Hm. f_equal. f_equal. lia.
  - cbn [send_each].
    set (s := {| mgr := m; txn := new_Transaction req m; trace := tr |}).
    specialize (IH (mgr (snd (send net s))) (trace (snd (send net s))) (n + 1)).
    cbn zeta in IH.
    destruct (send_each net reqs _ _) as [[ts m'] tr'].
    cbn [fst snd] in *. intros Hall.
    apply Forall_cons in Hall as [[r Hr] Hall].
    destruct (send_resolved s r eq_refl eq_refl) as (n1 & Hg & Hm1 & Hc);
      [right; by exists n|done|].
    cbn zeta in *. cbn [mgr s] in Hc. rewrite Hm in Hc.
    assert (Hf : falsy (VNum n) = false).
    { unfold falsy. apply Z.eqb_neq. lia. }
    rewrite Hf in Hc. destruct Hc as [(_ & Heq & Hq)|(? & _)]; [|done].
    assert (n1 = n) by congruence. subst n1.
    destruct (IH ltac:(lia) Hm1 Hall) as (Hi & Hfin & Hq').
    split; [|split].
    + intros [|i] t Hlook; cbn in Hlook.
      * injection Hlook as <-. rewrite Hg. f_equal. f_equal. lia.
      * rewrite (Hi i t Hlook). f_equal. f_equal. lia.
    + rewrite Hfin. cbn [length]. f_equal. f_equal. lia.
    + by rewrite Hq', Hq.
Qed.

(** X7: Transactions of one manager that are sent one after the other and
    all confirmed carry consecutive nonces: the first the stored nonce, or
    the account's transaction count if none (or [0]) was stored, each next
    one more; the manager ends with the nonce after the last, and the count
    was asked for at most once. *)
Theorem sends_take_consecutive_nonces req reqs m tr :
  counts_nonneg net →
  nonce_nat (m_nonce m) →
  let res := send_each net (req :: reqs) m tr in
  Forall (λ t, ∃ r, t_promise t = Resolved r) res.1.1 →
  ∃ n0, 0 <= n0 ∧
        (∀ i t, res.1.1 !! i = Some t →
                get (tx t) "nonce" = VNum (n0 + Z.of_nat i)) ∧
        m_nonce res.1.2 = VNum (n0 + Z.of_nat (length (req :: reqs))) ∧
        ((falsy (m_nonce m) = false ∧ m_nonce m = VNum n0 ∧
          nonce_queries res.2 = nonce_queries tr) ∨
         (falsy (m_nonce m) = true ∧
          (∃ t, net_getTransactionCount net t (m_address m) = Reply n0) ∧
          nonce_queries res.2 = (nonce_queries tr + 1)%nat)).
Proof.
  intros Hnet Hnat. cbn zeta. cbn [send_each].
  set (s := {| mgr := m; txn := new_Transaction req m; trace := tr |}).
  pose proof (send_each_warm reqs (mgr (snd (send net s)))
                (trace (snd (send net s)))) as Hwarm.
  cbn zeta in Hwarm.
  destruct (send_each net reqs _ _) as [[ts m'] tr'].
  cbn [fst snd] in *. intros Hall.
  apply Forall_cons in Hall as [[r Hr] Hall].
  destruct (send_resolved s r eq_refl eq_refl) as (n0 & Hg & Hm1 & Hc);
    [destruct Hnat as [Hu|(n & _ & Hv)]; [left; exact Hu|right; exists n; exact Hv]
    |done|].
  cbn zeta in *. cbn [mgr txn s t_address new_Transaction] in Hc.
  assert (H0 : 0 <= n0).
  { destruct Hc as [(_ & Heq & _)|(_ & [t Ht] & _)].
    - destruct Hnat as [Hu|(n & Hn & Hv)]; [congruence|].
      assert (n = n0) by congruence. lia.
    - exact (Hnet t _ n0 Ht). }
  destruct (Hwarm (n0 + 1) ltac:(lia) Hm1 Hall) as (Hi & Hfin & Hq).
  exists n0. split; [done|]. split; [|split].
  - intros [|i] t Hlook; cbn in Hlook.
    + injection Hlook as <-. rewrite Hg. f_equal. f_equal. lia.
    + rewrite (Hi i t Hlook). f_equal. f_equal. lia.
  - rewrite Hfin. cbn [length]. f_equal. f_equal. lia.
  - rewrite Hq. destruct Hc as [(? & ? & ?)|(? & ? & ?)]; [left|right]; done.
Qed.

End SendMore.

(** ** [replace] and [cancel] after [send] *)

Section ReplaceMore.

Variable net : Network.

(** Lines 53-58: the replacement takes the nonce of the pending request and
    the greater of the two gas prices, becomes the pending request, is
    escalated and submitted. *)
Lemma replace_unfold tx0 s :
  executed (txn s) = true →
  replace net tx0 s =
  let s1 := record (ELog "Replacing current transaction") s in
  let resubmit := λ (tx1 : txobj) (st : State),
    (_ <- _increaseGasPrice ;; _send net)
      (with_txn
         (set_tx
            (put "gasPrice"
                 (Math_max (get (tx (txn st)) "gasPrice")
                           (js_or (get tx1 "gasPrice") (VNum 0)))
                 (put "nonce" (get (tx (txn st)) "nonce") tx1))) st) in
  if falsy (get tx0 "gasLimit") then
    match net_estimateGas net (length (trace s1)) tx0 with
    | Reply g =>
        resubmit
          (put "gasLimit"
               (Math_min (floor_mul g (GAS_LIMIT_MULTIPLIER (m_config (mgr s))))
                         (BLOCK_GAS_LIMIT (m_config (mgr s)))) tx0)
          (record (EEstimateGas tx0) s1)
    | Reject code => (Throw (NetworkError code), record (EEstimateGas tx0) s1)
    | NoReply => (Pending, record (EEstimateGas tx0) s1)
    end
  else resubmit tx0 s1.
Proof.
  intros He. cbn zeta.
  unfold replace, bind at 1, console_log, modify. cbn.
  unfold bind at 1, get_state. cbn. rewrite He. cbn.
  destruct (falsy (get tx0 "gasLimit")).
  - unfold bind at 1, bind at 1, await. cbn.
    destruct (net_estimateGas net _ tx0); [|done|done].
    cbn. unfold bind at 1, ret. cbn. unfold bind at 1, modify. cbn.
    by rewrite get_put_ne.
  - unfold bind at 1, ret. cbn. unfold bind at 1, modify. cbn.
    by rewrite get_put_ne.
Qed.

(** X8: When the estimate that [replace] asks for is rejected, [replace]
    throws that rejection; the pending request, the hashes and the manager
    are as before and nothing was handed to the network for sending. *)
Theorem replace_estimate_rejected tx0 s code :
  executed (txn s) = true →
  falsy (get tx0 "gasLimit") = true →
  net_estimateGas net (S (length (trace s))) tx0 = Reject code →
  let r := replace net tx0 s in
  let s' := snd r in
  fst r = Throw (NetworkError code) ∧
  txn s' = txn s ∧ mgr s' = mgr s ∧
  sent_requests (trace s') = sent_requests (trace s).
Proof.
  intros He Hf Hr. cbn zeta. rewrite (replace_unfold tx0 s He). cbn zeta.
  rewrite Hf. cbn [record trace]. rewrite length_app. cbn [length].
  replace (length (trace s) + 1)%nat with (S (length (trace s))) by lia.
  rewrite Hr. cbn. count_simpl. done.
Qed.

(** X9: [replace] on an executed transaction whose request has no gas price
    yet (its preparation did not get that far) throws at the escalation:
    nothing is sent, and yet the pending request is already the
    replacement, its gas price [NaN]. *)
Theorem replace_without_gas_price_throws tx0 s :
  executed (txn s) = true →
  falsy (get tx0 "gasLimit") = false →
  get (tx (txn s)) "gasPrice" = VUndefined →
  let r := replace net tx0 s in
  let s' := snd r in
  fst r = Throw BigNumberError ∧
  sent_requests (trace s') = sent_requests (trace s) ∧
  get (tx (txn s')) "gasPrice" = VNaN ∧
  get (tx (txn s')) "nonce" = get (tx (txn s)) "nonce" ∧
  (∀ k, k ≠ "gasPrice" → k ≠ "nonce" → tx (txn s') !! k = tx0 !! k).
Proof.
  intros He Hf Hp. cbn zeta. rewrite (replace_unfold tx0 s He). cbn zeta.
  rewrite Hf. cbn [record txn tx]. rewrite Hp.
  change (Math_max VUndefined ?v) with VNaN.
  match goal with
  | |- context [bind _increaseGasPrice ?k ?st] =>
      assert (Hb : bind _increaseGasPrice k st = (Throw BigNumberError, st))
  end.
  { unfold bind.
    match goal with
    | |- context [_increaseGasPrice ?st] =>
        pose proof (_increaseGasPrice_cases st) as Hc
    end.
    cbn zeta in Hc. cbn [with_txn txn tx set_tx] in Hc.
    rewrite get_put_eq in Hc. change (BigNumber_from VNaN) with (@None Z) in Hc.
    by rewrite Hc. }
  rewrite Hb. cbn. count_simpl.
  rewrite get_put_eq, get_put_ne, get_put_eq by done.
  repeat (split; [done|]).
  intros k H1 H2. by rewrite !lookup_put_ne.
Qed.

(** Escalation followed by submission, as [replace] runs them: the manager
    is not written, no estimate is asked for, the request changes in its gas
    price at most, and what is handed to the network is the request as it
    stands then. *)
Lemma resubmit_frame st :
  let s' := snd ((_ <- _increaseGasPrice ;; _send net) st) in
  mgr s' = mgr st ∧
  count_events is_estimateGas (trace s') = count_events is_estimateGas (trace st) ∧
  (∀ k, k ≠ "gasPrice" → get (tx (txn s')) k = get (tx (txn st)) k) ∧
  (sent_requests (trace s') = sent_requests (trace st) ∨
   sent_requests (trace s') = sent_requests (trace st) ++ [tx (txn s')]).
Proof.
  run; count_simpl; (split; [done|]); (split; [done|]);
    (split; [intros; by rewrite ?get_put_ne|]); auto.
Qed.

(** The same, by the price found: at or above the maximum the request is
    submitted as it is; below it, the escalated price is written first. *)
Lemma resubmit_price st P0 :
  BigNumber_from (get (tx (txn st)) "gasPrice") = Some P0 →
  let s' := snd ((_ <- _increaseGasPrice ;; _send net) st) in
  let M := parseUnits_gwei (MAX_GAS_PRICE (m_config (mgr st))) in
  let B := parseUnits_gwei (MIN_GWEI_BUMP (m_config (mgr st))) in
  let K := GAS_BUMP_PERCENTAGE (m_config (mgr st)) in
  sent_requests (trace s') = sent_requests (trace st) ++ [tx (txn s')] ∧
  (M <= P0 → tx (txn s') = tx (txn st)) ∧
  (P0 < M →
   tx (txn s') =
   put "gasPrice" (VHex (Z.min (Z.max (P0 * (100 + K) ÷ 100) (P0 + B)) M))
       (tx (txn st))).
Proof.
  intros HP. cbn zeta. unfold bind.
  pose proof (_increaseGasPrice_cases st) as Hc. cbn zeta in Hc.
  rewrite HP in Hc.
  destruct (Z.leb_spec (parseUnits_gwei (MAX_GAS_PRICE (m_config (mgr st)))) P0);
    rewrite Hc;
    match goal with
    | |- context [_send net ?s1] =>
        pose proof (_send_frame net s1) as (_ & Htx & _ & _ & Hsent & _);
        destruct (_send net s1) as [o s2]; cbn [fst snd] in *
    end.
  all: destruct o as [[]|e|]; cbn in *; rewrite Htx, Hsent; cbn;
    count_simpl; (split; [done|]); split; intros; (done || lia).
Qed.

(** X10: [replace] after [send], the pending price a hexadecimal numeral
    of a natural number [P], the caller's price a number [Q] ([0] if none),
    their greater a safe integer, the minimum bump positive.  If the
    replacement has a gas limit or its estimate arrives, exactly the final
    request is handed to the network: below the maximum at the escalated
    price, which is above both [P] and [Q] and at most the maximum; at or
    above the maximum at the greater of [P] and [Q] itself, uncapped.  If
    the estimate is rejected or never arrives, [replace] throws or stays
    suspended, and nothing has changed or was sent. *)
Theorem replace_raises_gas_price tx0 s P Q :
  executed (txn s) = true →
  get (tx (txn s)) "gasPrice" = VHex P →
  0 <= P →
  to_number (js_or (get tx0 "gasPrice") (VNum 0)) = NFin Q →
  Z.max P Q < MAX_SAFE →
  0 < MIN_GWEI_BUMP (m_config (mgr s)) →
  let r := replace net tx0 s in
  let s' := snd r in
  let M := parseUnits_gwei (MAX_GAS_PRICE (m_config (mgr s))) in
  let B := parseUnits_gwei (MIN_GWEI_BUMP (m_config (mgr s))) in
  let K := GAS_BUMP_PERCENTAGE (m_config (mgr s)) in
  let P0 := Z.max P Q in
  let bumped := Z.min (Z.max (P0 * (100 + K) ÷ 100) (P0 + B)) M in
  let estimate := net_estimateGas net (S (length (trace s))) tx0 in
  (falsy (get tx0 "gasLimit") = false ∨ (∃ g, estimate = Reply g) →
   sent_requests (trace s') = sent_requests (trace s) ++ [tx (txn s')] ∧
   if M <=? P0
   then get (tx (txn s')) "gasPrice" = VNum P0
   else get (tx (txn s')) "gasPrice" = VHex bumped ∧
        P0 < bumped ∧ bumped <= M) ∧
  (falsy (get tx0 "gasLimit") = true →
   ∀ code, estimate = Reject code →
   fst r = Throw (NetworkError code) ∧ txn s' = txn s ∧
   sent_requests (trace s') = sent_requests (trace s)) ∧
  (falsy (get tx0 "gasLimit") = true →
   estimate = NoReply →
   fst r = Pending ∧ txn s' = txn s ∧
   sent_requests (trace s') = sent_requests (trace s)).
Proof.
  intros He HP HP0 HQ Hsafe HB. cbn zeta. rewrite (replace_unfold tx0 s He).
  cbn zeta.
  assert (Hmax : ∀ tx1, get tx1 "gasPrice" = get tx0 "gasPrice" →
            Math_max (VHex P) (js_or (get tx1 "gasPrice") (VNum 0)) =
            VNum (Z.max P Q)).
  { intros tx1 ->. unfold Math_max. rewrite HQ. cbn.
    destruct (Z.ltb_spec P 0); [lia|]. done. }
  assert (Hbig : BigNumber_from (VNum (Z.max P Q)) = Some (Z.max P Q)).
  { unfold BigNumber_from.
    destruct (Z.leb_spec MAX_SAFE (Z.max P Q)); [lia|].
    destruct (Z.leb_spec (Z.max P Q) (- MAX_SAFE)); [unfold MAX_SAFE in *; lia|].
    done. }
  assert (Hgo : ∀ tx1 st,
            get tx1 "gasPrice" = get tx0 "gasPrice" →
            tx (txn st) = tx (txn s) → mgr st = mgr s →
            sent_requests (trace st) = sent_requests (trace s) →
            let s' := snd ((_ <- _increaseGasPrice ;; _send net)
                        (with_txn
                           (set_tx
                              (put "gasPrice"
                                 (Math_max (get (tx (txn st)) "gasPrice")
                                    (js_or (get tx1 "gasPrice") (VNum 0)))
                                 (put "nonce" (get (tx (txn st)) "nonce") tx1)))
                           st)) in
            let M := parseUnits_gwei (MAX_GAS_PRICE (m_config (mgr s))) in
            let B := parseUnits_gwei (MIN_GWEI_BUMP (m_config (mgr s))) in
            let K := GAS_BUMP_PERCENTAGE (m_config (mgr s)) in
            let P0 := Z.max P Q in
            let bumped := Z.min (Z.max (P0 * (100 + K) ÷ 100) (P0 + B)) M in
            sent_requests (trace s') = sent_requests (trace s) ++ [tx (txn s')] ∧
            if M <=? P0
            then get (tx (txn s')) "gasPrice" = VNum P0
            else get (tx (txn s')) "gasPrice" = VHex bumped ∧
                 P0 < bumped ∧ bumped <= M).
  { intros tx1 st Hg Htx Hm Hsent. cbn zeta.
    match goal with
    | |- context [(_ <- _increaseGasPrice ;; _send net) ?st1] =>
        pose proof (resubmit_price st1 (Z.max P Q)) as Hr
    end.
    cbn zeta in Hr. cbn [with_txn txn tx set_tx mgr trace] in Hr.
    rewrite get_put_eq, Htx, HP, Hm, Hsent, (Hmax tx1 Hg) in Hr.
    destruct (Hr Hbig) as (Hs & Hhi & Hlo). clear Hr.
    rewrite Htx, HP, (Hmax tx1 Hg).
    split; [exact Hs|].
    destruct (Z.leb_spec
                (parseUnits_gwei (MAX_GAS_PRICE (m_config (mgr s)))) (Z.max P Q))
      as [Hle|Hlt].
    - rewrite (Hhi Hle), get_put_eq. done.
    - rewrite (Hlo Hlt), get_put_eq. split; [done|].
      unfold parseUnits_gwei in *. lia. }
  cbn [record trace]. rewrite length_app. cbn [length].
  replace (length (trace s) + 1)%nat with (S (length (trace s))) by lia.
  split; [|split].
  - intros Harr. destruct (falsy (get tx0 "gasLimit")).
    + destruct Harr as [?|[g Hg]]; [done|]. rewrite Hg.
      apply Hgo; [by rewrite get_put_ne|done|done|]. cbn. count_simpl. done.
    + apply Hgo; [done|done|done|]. cbn. count_simpl. done.
  - intros -> code ->. cbn. count_simpl. done.
  - intros -> ->. cbn. count_simpl. done.
Qed.

(** X11: [cancel] after [send] asks for no estimate and does not write the
    manager; whatever it hands to the network is a transfer of nothing
    from the sender to itself, with a gas limit of 21000 and the nonce of
    the pending request. *)
Theorem cancel_resubmits_self_transfer s :
  executed (txn s) = true →
  let s' := snd (cancel net s) in
  let a := VStr (t_address (txn s)) in
  mgr s' = mgr s ∧
  count_events is_estimateGas (trace s') = count_events is_estimateGas (trace s) ∧
  (sent_requests (trace s') = sent_requests (trace s) ∨
   sent_requests (trace s') = sent_requests (trace s) ++ [tx (txn s')]) ∧
  get (tx (txn s')) "from" = a ∧ get (tx (txn s')) "to" = a ∧
  get (tx (txn s')) "value" = VNum 0 ∧
  get (tx (txn s')) "gasLimit" = VNum 21000 ∧
  get (tx (txn s')) "nonce" = get (tx (txn s)) "nonce".
Proof.
  intros He. cbn zeta.
  rewrite cancel_unfold,
    (replace_unfold _ (record (ELog "Canceling the transaction") s) He).
  cbn zeta. rewrite !get_put_eq. change (falsy (VNum 21000)) with false.
  cbn match.
  match goal with
  | |- context [(_ <- _increaseGasPrice ;; _send net) ?st1] =>
      pose proof (resubmit_frame st1) as (Hm & Hc & Hk & Hs)
  end.
  rewrite Hm, Hc, !Hk by done. cbn. count_simpl.
  split; [done|]. split; [done|]. split.
  - cbn in Hs. revert Hs. count_simpl. done.
  - repeat (rewrite ?get_put_eq; rewrite ?get_put_ne by done). done.
Qed.

End ReplaceMore.

(** ** What the calls keep *)

Section Keep.

Variable net : Network.

Lemma replace_pending tx0 s :
  executed (txn s) = false →
  replace net tx0 s =
  (Ok tt, with_txn (set_tx tx0) (record (ELog "Replacing current transaction") s)).
Proof.
  intros He. unfold replace, bind, console_log, modify, get_state. cbn.
  by rewrite He.
Qed.

Lemma do_call_mgr c s : mgr (snd (do_call net c s)) = mgr s.
Proof.
  destruct (executed (txn s)) eqn:He.
  - by destruct (do_call_executed net c s He) as (_ & Hm & _).
  - destruct c as [tx0|]; cbn [do_call]; [|rewrite cancel_unfold];
      by rewrite replace_pending.
Qed.

(** X12: [replace] and [cancel] never write the manager: not its nonce, not its
    config, and the mutex is neither taken nor released, whether it is held
    or free, whether the transaction was sent or not, and whatever the
    network answers. *)
Theorem calls_never_write_manager cs : ∀ s, mgr (run_calls net cs s) = mgr s.
Proof.
  induction cs as [|c cs IH]; intros s; cbn; [done|].
  unfold run_calls in IH. rewrite IH. apply do_call_mgr.
Qed.

(** A first [send] leaves the fields that [_prepare] does not assign as
    they are, and hands the request to the network at most once, as it
    stands at the end. *)
Lemma send_request_fields s :
  executed (txn s) = false →
  let s' := snd (send net s) in
  (∀ k, prepared_field k = false → tx (txn s') !! k = tx (txn s) !! k) ∧
  (sent_requests (trace s') = sent_requests (trace s) ∨
   sent_requests (trace s') = sent_requests (trace s) ++ [tx (txn s')]).
Proof.
  intros He. cbn zeta. rewrite (send_unfold net s He), _execute_unfold.
  set (s1 := with_mgr (set_locked true) (with_txn (set_executed true) s)).
  destruct (m_locked (mgr (with_txn (set_executed true) s))) eqn:Hl.
  { cbn. auto. }
  pose proof (_prepare_other_fields net s1) as Hk.
  pose proof (_prepare_nonce net s1) as (_ & _ & _ & Hsent & _).
  destruct (_prepare net s1) as [o1 s2]. cbn [fst snd] in *.
  destruct o1 as [[]|e|]; cbn; [|rewrite Hsent; auto..].
  pose proof (_send_frame net s2) as (_ & Htx & _ & _ & Hs & _).
  destruct (_send net s2) as [o2 s3]. cbn [fst snd] in *.
  destruct o2 as [[]|e|]; cbn; rewrite Htx, Hs, Hsent; auto.
Qed.

(** X13: The request of a first [send]: whatever the caller gave as sender is
    replaced by the manager's address, the fields that [_prepare] does not
    assign are the caller's, and if anything was handed to the network, it
    is this request. *)
Theorem first_send_request req m tr :
  let s := {| mgr := m; txn := new_Transaction req m; trace := tr |} in
  let s' := snd (send net s) in
  get (tx (txn s')) "from" = VStr (m_address m) ∧
  (∀ k, prepared_field k = false → k ≠ "from" → tx (txn s') !! k = req !! k) ∧
  (sent_requests (trace s') = sent_requests tr ∨
   sent_requests (trace s') = sent_requests tr ++ [tx (txn s')]).
Proof.
  cbn zeta.
  set (s := {| mgr := m; txn := new_Transaction req m; trace := tr |}).
  destruct (send_request_fields s eq_refl) as (Hk & Hs). cbn zeta in *.
  split; [|split; [|exact Hs]].
  - unfold get. rewrite Hk by done. cbn. unfold put.
    by rewrite lookup_insert_eq.
  - intros k Hp Hne. rewrite Hk by done. cbn. by rewrite lookup_put_ne.
Qed.

(** X17: A [replace] before [send] that names no sender leaves the request
    without one for good: the [send] that follows does not put the
    manager's address back, and what it hands to the network has no [from]
    field. *)
Theorem replace_then_send_has_no_sender tx0 s :
  executed (txn s) = false →
  tx0 !! "from" = None →
  let s1 := snd (replace net tx0 s) in
  let s' := snd (send net s1) in
  tx (txn s') !! "from" = None ∧
  (sent_requests (trace s') = sent_requests (trace s) ∨
   ∃ req, sent_requests (trace s') = sent_requests (trace s) ++ [req] ∧
          req !! "from" = None).
Proof.
  intros He Hfrom. cbn zeta. rewrite (replace_pending tx0 s He). cbn [snd].
  set (s1 := with_txn (set_tx tx0) (record (ELog "Replacing current transaction") s)).
  destruct (send_request_fields s1 He) as (Hk & Hs). cbn zeta in *.
  assert (Hnone : tx (txn (snd (send net s1))) !! "from" = None).
  { rewrite Hk by done. done. }
  split; [done|].
  revert Hs. cbn [s1 with_txn record trace]. count_simpl.
  intros [Hs|Hs]; [by left|right]. eexists. split; [exact Hs|done].
Qed.

(** ** The manager's nonce *)

(** [_execute] keeps the manager's nonce unset or a natural number. *)
Lemma _execute_nonce_nat s :
  counts_nonneg net →
  nonce_nat (m_nonce (mgr s)) →
  nonce_nat (m_nonce (mgr (snd (_execute net s)))).
Proof.
  intros Hnet Hnat. rewrite _execute_unfold.
  destruct (m_locked (mgr s)); [done|].
  pose proof (_prepare_nonce net (with_mgr (set_locked true) s)) as Hp.
  cbn zeta in Hp.
  destruct (_prepare net _) as [o1 s2]. cbn [fst snd] in Hp.
  destruct Hp as (_ & _ & _ & _ & Hn). cbn in Hn.
  assert (H2 : nonce_nat (m_nonce (mgr s2)) ∧
               (o1 = Ok tt → ∃ n, 0 <= n ∧ get (tx (txn s2)) "nonce" = VNum n)).
  { destruct (falsy (m_nonce (mgr s))) eqn:Hf.
    - destruct Hn as [(Hm & Hne & _)|(t & n & Hr & Hm & _ & Hget)].
      + rewrite Hm. split; [done|]. by intros ->.
      + pose proof (Hnet t _ n Hr). rewrite Hm.
        split; [right; by exists n|]. intros ->. exists n. auto.
    - destruct Hn as (Hm & _ & Hget). rewrite Hm. split; [done|].
      intros ->. destruct Hnat as [Hu|(n & H0 & Hv)]; [by rewrite Hu in Hf|].
      exists n. rewrite Hget, Hv by done. done. }
  destruct H2 as [Hnat2 Hok].
  destruct o1 as [[]|e|]; cbn; [|done|done].
  pose proof (_send_frame net s2) as (Hmgr & Htx & _).
  destruct (_send net s2) as [o2 s3]. cbn [fst snd] in *.
  destruct o2 as [[]|e|]; cbn; rewrite ?Hmgr; [|done|done].
  destruct Hok as (n & H0 & Hget); [done|].
  rewrite Htx, Hget. right. exists (n + 1). split; [lia|done].
Qed.

Lemma do_action_nonce_nat a s :
  counts_nonneg net →
  nonce_nat (m_nonce (mgr s)) →
  nonce_nat (m_nonce (mgr (snd (do_action net a s)))).
Proof.
  intros Hnet Hnat. destruct a as [|c]; cbn [do_action].
  - destruct (executed (txn s)) eqn:He.
    + unfold send, bind, get_state, throw. by rewrite He.
    + rewrite (send_unfold net s He).
      pose proof (_execute_nonce_nat (with_txn (set_executed true) s) Hnet Hnat)
        as H.
      by destruct (_execute net _) as [[r|e|] s1].
  - by rewrite do_call_mgr.
Qed.

(** X16: Over a network whose transaction counts are not negative, a manager's
    nonce that is unset or a natural number stays so through every [send],
    [replace] and [cancel], whatever their outcome: it never becomes
    negative, [NaN] or a string. *)
Theorem manager_nonce_stays_natural acts : ∀ s,
  counts_nonneg net →
  nonce_nat (m_nonce (mgr s)) →
  nonce_nat (m_nonce (mgr (run_actions net acts s))).
Proof.
  induction acts as [|a acts IH]; intros s Hnet Hnat; cbn; [done|].
  apply IH; [done|]. by apply do_action_nonce_nat.
Qed.

(** ** Hashes and events *)

Lemma records_more_refl s : records_more s s.
Proof. exists [], []. rewrite !app_nil_r. done. Qed.

Lemma records_more_trans s1 s2 s3 :
  records_more s1 s2 → records_more s2 s3 → records_more s1 s3.
Proof.
  intros (hs1 & es1 & Hh1 & He1 & Hi1 & Hl1) (hs2 & es2 & Hh2 & He2 & Hi2 & Hl2).
  exists (hs1 ++ hs2), (es1 ++ es2).
  rewrite Hh2, Hh1, He2, He1, !app_assoc, !length_app.
  split; [done|]. split; [done|]. split; [|lia].
  intros h [?|?]%in_app_or; apply in_or_app; auto.
Qed.

Ltac records_more_leaf :=
  first
    [ exists [], []; rewrite ?app_nil_r; by repeat split
    | eexists [_], []; rewrite ?app_nil_r;
      split; [reflexivity|]; split; [reflexivity|]; split; [by intros ? []|];
      cbn; lia
    | eexists [_], [_]; split; [reflexivity|]; split; [reflexivity|];
      split; [done|]; cbn; lia ].

Lemma send_records_more s : records_more s (snd (send net s)).
Proof. unfold records_more. run; count_simpl; records_more_leaf. Qed.

Lemma replace_records_more tx0 s : records_more s (snd (replace net tx0 s)).
Proof. unfold records_more. run; count_simpl; records_more_leaf. Qed.

Lemma do_action_records_more a s : records_more s (snd (do_action net a s)).
Proof.
  destruct a as [|[tx0|]]; cbn [do_action do_call].
  - apply send_records_more.
  - apply replace_records_more.
  - rewrite cancel_unfold.
    eapply records_more_trans; [|apply replace_records_more].
    exists [], []. cbn. count_simpl. by repeat split.
Qed.

(** X14: Whatever a caller does with a transaction, in whatever order and
    whatever the network answers: hashes are only ever appended, events
    too, every [transactionHash] event carries a hash that is in [hashes],
    and there are never more new events than new hashes. *)
Theorem hashes_record_every_event acts : ∀ s,
  all_recorded s →
  let s' := run_actions net acts s in
  all_recorded s' ∧
  hashes (txn s) `prefix_of` hashes (txn s') ∧
  emitted (trace s) `prefix_of` emitted (trace s') ∧
  (length (emitted (trace s')) + length (hashes (txn s)) <=
   length (emitted (trace s)) + length (hashes (txn s')))%nat.
Proof.
  assert (Hall : ∀ s, records_more s (run_actions net acts s)).
  { induction acts as [|a acts IH]; intros s; cbn.
    - apply records_more_refl.
    - eapply records_more_trans; [apply do_action_records_more|apply IH]. }
  intros s Hrec. cbn zeta.
  destruct (Hall s) as (hs & es & Hh & He & Hi & Hl).
  split; [|split; [|split]].
  - intros h. rewrite Hh, He. intros [?|?]%in_app_or; apply in_or_app; auto.
  - rewrite Hh. by apply prefix_app_r.
  - rewrite He. by apply prefix_app_r.
  - rewrite Hh, He, !length_app. lia.
Qed.

End Keep.

(** ** Escalation makes progress *)

Lemma escalate_bounds k : ∀ s P,
  BigNumber_from (get (tx (txn s)) "gasPrice") = Some P →
  P <= parseUnits_gwei (MAX_GAS_PRICE (m_config (mgr s))) →
  0 <= MIN_GWEI_BUMP (m_config (mgr s)) →
  ∃ P', BigNumber_from (get (tx (txn (escalate k s))) "gasPrice") = Some P' ∧
        Z.min (P + Z.of_nat k * parseUnits_gwei (MIN_GWEI_BUMP (m_config (mgr s))))
              (parseUnits_gwei (MAX_GAS_PRICE (m_config (mgr s)))) <= P' ∧
        P' <= parseUnits_gwei (MAX_GAS_PRICE (m_config (mgr s))).
Proof.
  induction k as [|k IH]; intros s P HP HM HB.
  - exists P. cbn. split; [done|]. lia.
  - cbn [escalate].
    pose proof (_increaseGasPrice_cases s) as Hc. cbn zeta in Hc.
    rewrite HP in Hc.
    assert (HB' : 0 <= parseUnits_gwei (MIN_GWEI_BUMP (m_config (mgr s))))
      by (unfold parseUnits_gwei; lia).
    destruct (Z.leb_spec (parseUnits_gwei (MAX_GAS_PRICE (m_config (mgr s)))) P);
      rewrite Hc; cbn [snd].
    + destruct (IH (record (ELog "Already at max gas price, not bumping") s) P
                  HP HM HB) as (P' & H1 & H2 & H3).
      exists P'. cbn in *. split; [done|]. split; [nia|done].
    + match goal with
      | |- context [escalate k ?s1] =>
          destruct (IH s1 _ ltac:(cbn; rewrite get_put_eq; reflexivity)
                      ltac:(cbn; lia) ltac:(cbn; lia))
            as (P' & H1 & H2 & H3)
      end.
      exists P'. cbn in *. split; [done|]. split; [nia|done].
Qed.

(** X15: Below the maximum and with a positive minimum bump, a step raises the
    price, by the bump at least unless the maximum is nearer; so [k] steps
    reach the maximum as soon as [k] bumps span the distance, and the step
    after that reports that nothing is left to bump. *)
Theorem escalation_reaches_max k s P :
  let M := parseUnits_gwei (MAX_GAS_PRICE (m_config (mgr s))) in
  let B := parseUnits_gwei (MIN_GWEI_BUMP (m_config (mgr s))) in
  BigNumber_from (get (tx (txn s)) "gasPrice") = Some P →
  P <= M →
  0 < MIN_GWEI_BUMP (m_config (mgr s)) →
  (P < M →
   ∃ p, get (tx (txn (snd (_increaseGasPrice s)))) "gasPrice" = VHex p ∧
        Z.min (P + B) M <= p ∧ P < p ∧ p <= M) ∧
  (M <= P + Z.of_nat k * B →
   BigNumber_from (get (tx (txn (escalate k s))) "gasPrice") = Some M ∧
   fst (_increaseGasPrice (escalate k s)) = Ok false).
Proof.
  cbn zeta. intros HP HM HB. split.
  - intros Hlt. pose proof (_increaseGasPrice_cases s) as Hc. cbn zeta in Hc.
    rewrite HP in Hc.
    destruct (Z.leb_spec (parseUnits_gwei (MAX_GAS_PRICE (m_config (mgr s)))) P);
      [lia|].
    rewrite Hc. cbn. rewrite get_put_eq. eexists. split; [done|].
    unfold parseUnits_gwei in *. lia.
  - intros Hk.
    destruct (escalate_bounds k s P HP HM ltac:(lia)) as (P' & H1 & H2 & H3).
    assert (P' = parseUnits_gwei (MAX_GAS_PRICE (m_config (mgr s)))) by lia.
    subst P'. split; [done|].
    pose proof (_increaseGasPrice_cases (escalate k s)) as Hc. cbn zeta in Hc.
    rewrite escalate_mgr, H1 in Hc. rewrite Z.leb_refl in Hc. by rewrite Hc.
Qed.

(** ** The further theorems at the scenarios *)

(** A first preparation with nothing cached: the block gas limit becomes 95
    percent of the latest block's, and the caller's gas limit, gas price and
    sender are dealt with as the theorems say. *)
Example scenario_explicit :
  let s' := snd (_prepare net0 s_fresh) in
  BLOCK_GAS_LIMIT (m_config (mgr s')) = VNum 19000000 ∧
  get (tx (txn s')) "gasLimit" = VNum 30000 ∧
  get (tx (txn s')) "gasPrice" = VHex (gwei 2000) ∧
  get (tx (txn s')) "nonce" = VNum 7 ∧
  get (tx (txn s')) "from" = VStr "0xme" ∧
  count_events is_estimateGas (trace s') = 1%nat.
Proof. vm_compute. done. Qed.

(** A request with its own gas limit, under [ESTIMATE_GAS]. *)
Lemma prepare_keeps_explicit_gas_limit_witness :
  falsy (get (tx (txn s_fresh)) "gasLimit") = false ∧
  get (tx (txn (snd (_prepare net0 s_fresh)))) "gasLimit" =
  get (tx (txn s_fresh)) "gasLimit".
Proof.
  split; [vm_compute; reflexivity|].
  destruct (prepare_keeps_explicit_gas_limit net0 s_fresh
              ltac:(vm_compute; reflexivity)) as (H & _).
  exact H.
Defined.

(** A rejected broadcast leaves 7 on the manager, the nonce of the request
    that failed. *)
Lemma failed_execute_leaves_nonce_witness :
  fst (_execute net_reject s0) = Throw (NetworkError 1) ∧
  fst (_prepare net_reject (with_mgr (set_locked true) s0)) = Ok tt ∧
  m_nonce (mgr (snd (_execute net_reject s0))) =
  get (tx (txn (snd (_execute net_reject s0)))) "nonce".
Proof.
  split; [vm_compute; reflexivity|]. split; [vm_compute; reflexivity|].
  destruct (failed_execute_leaves_nonce net_reject s0 (NetworkError 1)
              (snd (_execute net_reject s0))
              ltac:(vm_compute; reflexivity) ltac:(vm_compute; reflexivity)
              eq_refl) as (H & _).
  exact H.
Defined.

(** The first [send] of the scenario returns the emitter. *)
Lemma send_settles_witness :
  executed (txn s0) = false ∧ t_promise (txn s0) = Unsettled ∧
  fst (send net0 s0) = Ok tt ∧ executed (txn (snd (send net0 s0))) = true.
Proof.
  split; [reflexivity|]. split; [reflexivity|].
  destruct (send_settles net0 s0 eq_refl eq_refl) as (H1 & H2 & _).
  split; [exact H1|exact H2].
Defined.

Lemma net0_counts_nonneg : counts_nonneg net0.
Proof. intros t a n H. injection H as <-. lia. Qed.

(** Three transfers in a row from a fresh manager: nonces 7, 8 and 9. *)
Lemma sends_take_consecutive_nonces_witness :
  counts_nonneg net0 ∧ nonce_nat (m_nonce m0) ∧
  Forall (λ t, ∃ r, t_promise t = Resolved r)
         (send_each net0 [transfer; transfer; transfer] m0 []).1.1 ∧
  ∃ n0, 0 <= n0 ∧
        (∀ i t, (send_each net0 [transfer; transfer; transfer] m0 []).1.1 !! i
                = Some t →
                get (tx t) "nonce" = VNum (n0 + Z.of_nat i)) ∧
        m_nonce (send_each net0 [transfer; transfer; transfer] m0 []).1.2 =
        VNum (n0 + 3).
Proof.
  assert (Hall : Forall (λ t, ∃ r, t_promise t = Resolved r)
                   (send_each net0 [transfer; transfer; transfer] m0 []).1.1).
  { vm_compute. repeat constructor; eexists; reflexivity. }
  split; [exact net0_counts_nonneg|]. split; [left; reflexivity|].
  split; [exact Hall|].
  destruct (sends_take_consecutive_nonces net0 transfer [transfer; transfer]
              m0 [] net0_counts_nonneg ltac:(left; reflexivity) Hall)
    as (n0 & H0 & Hi & Hm & _).
  exists n0. split; [exact H0|]. split; [exact Hi|exact Hm].
Defined.

(** A stuck transaction is to be replaced by a transfer without a gas
    limit, and the estimate is rejected. *)
Lemma replace_estimate_rejected_witness :
  executed (txn (snd (send net_stuck s0))) = true ∧
  falsy (get transfer "gasLimit") = true ∧
  fst (replace net_no_estimate transfer (snd (send net_stuck s0))) =
  Throw (NetworkError 3) ∧
  txn (snd (replace net_no_estimate transfer (snd (send net_stuck s0)))) =
  txn (snd (send net_stuck s0)).
Proof.
  split; [vm_compute; reflexivity|]. split; [vm_compute; reflexivity|].
  destruct (replace_estimate_rejected net_no_estimate transfer
              (snd (send net_stuck s0)) 3
              ltac:(vm_compute; reflexivity) ltac:(vm_compute; reflexivity)
              ltac:(reflexivity)) as (H1 & H2 & _).
  split; [exact H1|exact H2].
Defined.

(** A [send] whose estimate was rejected never set a gas price; the
    [cancel] that follows throws. *)
Lemma replace_without_gas_price_throws_witness :
  executed (txn (snd (send net_no_estimate s0))) = true ∧
  get (tx (txn (snd (send net_no_estimate s0)))) "gasPrice" = VUndefined ∧
  fst (replace net0 (put "gasLimit" (VNum 21000) transfer)
         (snd (send net_no_estimate s0))) = Throw BigNumberError.
Proof.
  split; [vm_compute; reflexivity|]. split; [vm_compute; reflexivity|].
  destruct (replace_without_gas_price_throws net0
              (put "gasLimit" (VNum 21000) transfer)
              (snd (send net_no_estimate s0))
              ltac:(vm_compute; reflexivity) ltac:(vm_compute; reflexivity)
              ltac:(vm_compute; reflexivity)) as (H & _).
  exact H.
Defined.

(** A stuck transaction at 100 gwei is replaced by a transfer without a
    price of its own: the estimate arrives, and the replacement goes out at
    110 gwei. *)
Lemma replace_raises_gas_price_witness :
  executed (txn (snd (send net_stuck s0))) = true ∧
  get (tx (txn (snd (send net_stuck s0)))) "gasPrice" = VHex (gwei 100) ∧
  to_number (js_or (get transfer "gasPrice") (VNum 0)) = NFin 0 ∧
  (∃ g, net_estimateGas net0 (S (length (trace (snd (send net_stuck s0)))))
          transfer = Reply g) ∧
  sent_requests (trace (snd (replace net0 transfer (snd (send net_stuck s0))))) =
  sent_requests (trace (snd (send net_stuck s0))) ++
  [tx (txn (snd (replace net0 transfer (snd (send net_stuck s0)))))] ∧
  get (tx (txn (snd (replace net0 transfer (snd (send net_stuck s0))))))
      "gasPrice" = VHex (gwei 110).
Proof.
  split; [vm_compute; reflexivity|]. split; [vm_compute; reflexivity|].
  split; [vm_compute; reflexivity|].
  split; [exists 40000; reflexivity|].
  destruct (replace_raises_gas_price net0 transfer (snd (send net_stuck s0))
              (gwei 100) 0
              ltac:(vm_compute; reflexivity) ltac:(vm_compute; reflexivity)
              ltac:(vm_compute; discriminate) ltac:(vm_compute; reflexivity)
              ltac:(vm_compute; reflexivity) ltac:(vm_compute; reflexivity))
    as (H & _).
  destruct (H (or_intror (ex_intro _ 40000 eq_refl))) as (Hs & Hp).
  split; [exact Hs|]. exact (proj1 Hp).
Defined.

(** A stuck transaction is cancelled. *)
Lemma cancel_resubmits_self_transfer_witness :
  executed (txn (snd (send net_stuck s0))) = true ∧
  get (tx (txn (snd (cancel net0 (snd (send net_stuck s0)))))) "value" = VNum 0 ∧
  get (tx (txn (snd (cancel net0 (snd (send net_stuck s0)))))) "gasLimit" =
  VNum 21000.
Proof.
  split; [vm_compute; reflexivity|].
  destruct (cancel_resubmits_self_transfer net0 (snd (send net_stuck s0))
              ltac:(vm_compute; reflexivity))
    as (_ & _ & _ & _ & _ & H1 & H2 & _).
  split; [exact H1|exact H2].
Defined.

(** A [send] and a [cancel] on a fresh transaction. *)
Lemma hashes_record_every_event_witness :
  all_recorded s0 ∧
  all_recorded (run_actions net0 [ASend; ACall CallCancel] s0).
Proof.
  assert (H0 : all_recorded s0) by (intros h []).
  split; [exact H0|].
  destruct (hashes_record_every_event net0 [ASend; ACall CallCancel] s0 H0)
    as (H & _).
  exact H.
Defined.

(** From 990 gwei, with a bump of 5 gwei and a maximum of 1000, two steps
    are enough. *)
Lemma escalation_reaches_max_witness :
  BigNumber_from
    (get (tx (txn (s_price (cfg_bump 10 5 1000) (VHex (gwei 990))))) "gasPrice")
  = Some (gwei 990) ∧
  fst (_increaseGasPrice
         (escalate 2 (s_price (cfg_bump 10 5 1000) (VHex (gwei 990))))) = Ok false.
Proof.
  split; [vm_compute; reflexivity|].
  destruct (escalation_reaches_max 2
              (s_price (cfg_bump 10 5 1000) (VHex (gwei 990))) (gwei 990)
              ltac:(vm_compute; reflexivity) ltac:(vm_compute; discriminate)
              ltac:(vm_compute; reflexivity)) as (_ & H).
  destruct H as (_ & H); [vm_compute; discriminate|]. exact H.
Defined.

(** A [send] and a [cancel], seen from the manager. *)
Lemma manager_nonce_stays_natural_witness :
  counts_nonneg net0 ∧ nonce_nat (m_nonce (mgr s0)) ∧
  nonce_nat (m_nonce (mgr (run_actions net0 [ASend; ACall CallCancel] s0))).
Proof.
  split; [exact net0_counts_nonneg|]. split; [left; reflexivity|].
  apply (manager_nonce_stays_natural net0 [ASend; ACall CallCancel] s0
           net0_counts_nonneg).
  left; reflexivity.
Defined.

(** A replacement that names only [to], then [send]. *)
Lemma replace_then_send_has_no_sender_witness :
  executed (txn s0) = false ∧
  only_to !! "from" = None ∧
  tx (txn (snd (send net0 (snd (replace net0 only_to s0))))) !! "from" = None.
Proof.
  split; [reflexivity|]. split; [vm_compute; reflexivity|].
  destruct (replace_then_send_has_no_sender net0 only_to s0 eq_refl
              ltac:(vm_compute; reflexivity)) as (H & _).
  exact H.
Defined.
